(** * Climate Data API: authentication, registration and the role guard

    A shallow embedding of the user model ([src/models/user.ts]), the
    authentication controller ([src/controllers/auth.ts]), the user-update
    controller ([src/controllers/users.ts]) and the [auth] middleware
    ([src/middleware/auth.ts]), followed by the properties of the
    specification that concern them.

    The MongoDB collection is a list of documents in natural order; the
    handlers are programs in a state-and-exception monad whose state also
    records what was written to the Express response and whether [next()]
    was called.  Everything the handlers draw from their environment (the
    outcome of a driver call, [uuid4()], [new Date()], bcrypt and its salts,
    generated ObjectIds) is read from an [Env]. *)

From Stdlib Require Import String Ascii List Bool ZArith NArith Lia.
Import ListNotations.
Open Scope string_scope.

(** ** types/users.ts *)

Inductive Role : Type := student | teacher | sensor.

Definition Role_eqb (a b : Role) : bool :=
  match a, b with
  | student, student | teacher, teacher | sensor, sensor => true
  | _, _ => false
  end.

Definition AllowedRoles := list Role.

Definition ObjectId := N.

(** [string | Date] *)
Inductive DateValue : Type :=
| JsDate (ms : Z)
| DateString (s : string).

(** [authentication_key?: string | null]: the field may be missing from the
    document, hold [null], or hold a string. *)
Inductive KeyField : Type :=
| KeyAbsent
| KeyNull
| KeyString (k : string).

Record UserObject : Type := mkUser {
  _id : option ObjectId;
  email : string;
  password : string;
  role : Role;
  authentication_key : KeyField;
  creation_date : option DateValue;
  last_login : option DateValue
}.

Record LoginRequestBody : Type := mkLogin {
  login_email : string;
  login_password : string
}.

Definition set_id (i : option ObjectId) (u : UserObject) : UserObject :=
  mkUser i (email u) (password u) (role u) (authentication_key u)
         (creation_date u) (last_login u).

Definition set_password (p : string) (u : UserObject) : UserObject :=
  mkUser (_id u) (email u) p (role u) (authentication_key u)
         (creation_date u) (last_login u).

Definition set_authentication_key (k : KeyField) (u : UserObject) : UserObject :=
  mkUser (_id u) (email u) (password u) (role u) k
         (creation_date u) (last_login u).

Definition set_last_login (d : option DateValue) (u : UserObject) : UserObject :=
  mkUser (_id u) (email u) (password u) (role u) (authentication_key u)
         (creation_date u) d.

(** ** What a handler writes with [res.status(..).json(..)] *)

Inductive JsonValue : Type :=
| JNum (n : Z)
| JStr (s : string)
| JUpdateResult (matchedCount : nat).

Record Response : Type := mkResponse {
  statusCode : Z;
  body : list (string * JsonValue)
}.

(** [res.status(code).json({ status: code, message: msg })] *)
Definition status_message (code : Z) (msg : string) : Response :=
  mkResponse code [("status", JNum code); ("message", JStr msg)].

(** The keys of the JSON body, in order. *)
Definition shape (r : Response) : list string := map fst (body r).

Definition message_of (r : Response) : option JsonValue :=
  option_map snd (find (fun kv => String.eqb (fst kv) "message") (body r)).

(** ** The environment and the state *)

Record Env : Type := mkEnv {
  (** does the n-th call to the MongoDB driver reject? *)
  driver_fails : nat -> bool;
  (** the n-th result of [uuid4().toString()] *)
  uuid_at : nat -> string;
  (** the n-th [new Date()], in milliseconds *)
  date_at : nat -> Z;
  (** the n-th salt bcrypt generates *)
  salt_at : nat -> string;
  (** the n-th ObjectId the driver generates *)
  oid_at : nat -> ObjectId;
  (** bcrypt with the given cost and salt *)
  bcrypt_hash : nat -> string -> string -> string;
  (** [bcrypt.compare(plain, hash)] *)
  bcrypt_compare : string -> string -> bool
}.

Record World : Type := mkWorld {
  users : list UserObject;       (* db.collection("users") *)
  sent : option Response;        (* the response written so far *)
  next_called : bool;            (* has next() been called *)
  driver_calls : nat;
  uuid_calls : nat;
  date_calls : nat;
  salt_calls : nat;
  oid_calls : nat
}.

Definition with_users (us : list UserObject) (w : World) : World :=
  mkWorld us (sent w) (next_called w) (driver_calls w) (uuid_calls w)
          (date_calls w) (salt_calls w) (oid_calls w).

(** The state a fresh request starts from: nothing sent, [next] not called. *)
Definition fresh_request (w : World) : World :=
  mkWorld (users w) None false (driver_calls w) (uuid_calls w)
          (date_calls w) (salt_calls w) (oid_calls w).

(** ** The monad of handlers: state that survives an exception *)

Inductive Result (A : Type) : Type :=
| Ok (a : A)
| Throw (e : string).
Arguments Ok {A} a.
Arguments Throw {A} e.

Definition M (A : Type) : Type := World -> Result A * World.

Definition ret {A} (a : A) : M A := fun w => (Ok a, w).

Definition bind {A B} (m : M A) (k : A -> M B) : M B :=
  fun w =>
    match m w with
    | (Ok a, w') => k a w'
    | (Throw e, w') => (Throw e, w')
    end.

Definition throw {A} (e : string) : M A := fun w => (Throw e, w).

(** [try { m } catch (error) { h(error) }], also [p.then(..).catch(h)] *)
Definition try_catch {A} (m : M A) (h : string -> M A) : M A :=
  fun w =>
    match m w with
    | (Ok a, w') => (Ok a, w')
    | (Throw e, w') => h e w'
    end.

Declare Scope handler_scope.
Delimit Scope handler_scope with handler.
Notation "x <- m ;; k" := (bind m (fun x => k))
  (at level 61, m at next level, right associativity) : handler_scope.
Notation "m ;; k" := (bind m (fun _ => k))
  (at level 61, right associativity) : handler_scope.
Open Scope handler_scope.

(** Run a handler on a new request and keep the final state. *)
Definition handle (h : M unit) (w : World) : World := snd (h (fresh_request w)).

(** [res.status(..).json(..)]: Express throws when the headers are already
    sent. *)
Definition res_json (r : Response) : M unit :=
  fun w =>
    match sent w with
    | None =>
        (Ok tt, mkWorld (users w) (Some r) (next_called w) (driver_calls w)
                        (uuid_calls w) (date_calls w) (salt_calls w) (oid_calls w))
    | Some _ => (Throw "ERR_HTTP_HEADERS_SENT", w)
    end.

Definition next : M unit :=
  fun w =>
    (Ok tt, mkWorld (users w) (sent w) true (driver_calls w) (uuid_calls w)
                    (date_calls w) (salt_calls w) (oid_calls w)).

(** JavaScript truthiness of a string. *)
Definition truthy (s : string) : bool := negb (String.eqb s "").

(** [s.startsWith(p)] *)
Definition startsWith (s p : string) : bool := String.prefix p s.

(** [allowed_roles.includes(r)] *)
Definition includes (allowed_roles : AllowedRoles) (r : Role) : bool :=
  existsb (Role_eqb r) allowed_roles.

(** ** The collection *)

Definition has_id (i : ObjectId) (u : UserObject) : bool :=
  match _id u with
  | Some j => N.eqb j i
  | None => false
  end.

Definition has_email (e : string) (u : UserObject) : bool :=
  String.eqb (email u) e.

(** The filter [{ authentication_key: key }] with a string [key]. *)
Definition has_key (key : string) (u : UserObject) : bool :=
  match authentication_key u with
  | KeyString k => String.eqb k key
  | _ => false
  end.

(** Replace the first document whose [_id] is [i]; the replacement keeps
    that [_id].  Returns [matchedCount]. *)
Fixpoint replace_first (i : ObjectId) (d : UserObject) (l : list UserObject)
  : nat * list UserObject :=
  match l with
  | [] => (0, [])
  | u :: rest =>
      if has_id i u then (1, set_id (Some i) d :: rest)
      else let (n, rest') := replace_first i d rest in (n, u :: rest')
  end.

Section Program.

Variable E : Env.

(** One call to the driver: it rejects when the environment says so and
    otherwise runs [op] on the collection. *)
Definition driver_call {A} (op : list UserObject -> Result A * list UserObject)
  : M A :=
  fun w =>
    let w' := mkWorld (users w) (sent w) (next_called w) (S (driver_calls w))
                      (uuid_calls w) (date_calls w) (salt_calls w) (oid_calls w) in
    if driver_fails E (driver_calls w) then (Throw "MongoError", w')
    else let (r, us) := op (users w) in (r, with_users us w').

Definition findOne (filter : UserObject -> bool) : M (option UserObject) :=
  driver_call (fun us => (Ok (find filter us), us)).

Definition generate_ObjectId : M ObjectId :=
  fun w =>
    (Ok (oid_at E (oid_calls w)),
     mkWorld (users w) (sent w) (next_called w) (driver_calls w) (uuid_calls w)
             (date_calls w) (salt_calls w) (S (oid_calls w))).

(** [new ObjectId(x)]: a copy of [x], or a generated id when [x] is
    undefined. *)
Definition new_ObjectId (x : option ObjectId) : M ObjectId :=
  match x with
  | Some i => ret i
  | None => generate_ObjectId
  end.

(** [insertOne]: the driver gives the document an [_id] when it has none; the
    server refuses an [_id] that is already in the collection. *)
Definition insertOne (doc : UserObject) : M ObjectId :=
  i <- new_ObjectId (_id doc) ;;
  driver_call (fun us =>
    if existsb (has_id i) us then (Throw "E11000 duplicate key error", us)
    else (Ok i, (us ++ [set_id (Some i) doc])%list)).

Definition replaceOne (i : ObjectId) (doc : UserObject) : M nat :=
  driver_call (fun us => let (n, us') := replace_first i doc us in (Ok n, us')).

Definition uuid4 : M string :=
  fun w =>
    (Ok (uuid_at E (uuid_calls w)),
     mkWorld (users w) (sent w) (next_called w) (driver_calls w)
             (S (uuid_calls w)) (date_calls w) (salt_calls w) (oid_calls w)).

Definition new_Date : M DateValue :=
  fun w =>
    (Ok (JsDate (date_at E (date_calls w))),
     mkWorld (users w) (sent w) (next_called w) (driver_calls w) (uuid_calls w)
             (S (date_calls w)) (salt_calls w) (oid_calls w)).

(** [bcrypt.hashSync(s)] and [bcrypt.hash(s, rounds)]: a new salt each time. *)
Definition bcrypt_hash_salted (rounds : nat) (s : string) : M string :=
  fun w =>
    (Ok (bcrypt_hash E rounds (salt_at E (salt_calls w)) s),
     mkWorld (users w) (sent w) (next_called w) (driver_calls w) (uuid_calls w)
             (date_calls w) (S (salt_calls w)) (oid_calls w)).

Definition hashSync (s : string) : M string := bcrypt_hash_salted 10 s.

(** ** models/user.ts *)

Definition getByEmail (e : string) : M (option UserObject) :=
  try_catch (findOne (has_email e))
            (fun _ => throw ("user not found with email: " ++ e)).

Definition getByAuthenticationKey (key : string) : M (option UserObject) :=
  findOne (has_key key).

Definition create (user : UserObject) : M ObjectId :=
  insertOne (set_id None user).

Definition update (user : option UserObject) : M nat :=
  match user with
  | None => throw "USer object is null"
  | Some user =>
      let userWithoutId := set_id None user in
      i <- new_ObjectId (_id user) ;;
      replaceOne i userWithoutId
  end.

Definition updateUser (id : ObjectId) (user : UserObject) : M nat :=
  let userWithoutId := set_id None user in
  i <- new_ObjectId (Some id) ;;
  replaceOne i userWithoutId.

(** ** middleware/auth.ts

    [x_auth_key] is [req.get("X-AUTH-KEY")]. *)

Definition auth (allowed_roles : AllowedRoles) (x_auth_key : option string)
  : M unit :=
  match x_auth_key with
  | Some authenticationKey =>
      if truthy authenticationKey then
        try_catch
          (user <- getByAuthenticationKey authenticationKey ;;
           if match user with
              | Some u => includes allowed_roles (role u)
              | None => false
              end
           then next
           else res_json (status_message 403 "Access forbidden"))
          (fun _ => res_json (status_message 401 "Authentication key invalid"))
      else res_json (status_message 401 "Authentication key missing")
  | None => res_json (status_message 401 "Authentication key missing")
  end.

(** ** controllers/auth.ts *)

Definition login_response (authentication_key : string) : Response :=
  mkResponse 200 [("status", JNum 200); ("message", JStr "User logged in");
                  ("authenticationKey", JStr authentication_key)].

(** [loginData] is [req.body]. *)
Definition loginUser (loginData : option LoginRequestBody) : M unit :=
  try_catch
    (match loginData with
     | None => res_json (status_message 400 "Invalid request body")
     | Some loginData =>
         user <- getByEmail (login_email loginData) ;;
         match user with
         | None => res_json (status_message 401 "Invalid credentials")
         | Some user =>
             let passwordMatch :=
               bcrypt_compare E (login_password loginData) (password user) in
             if negb passwordMatch then
               res_json (status_message 401 "Invalid password")
             else
               authentication_key <- uuid4 ;;
               let user := set_authentication_key (KeyString authentication_key) user in
               now <- new_Date ;;
               let user := set_last_login (Some now) user in
               update (Some user) ;;
               res_json (login_response authentication_key)
         end
     end)
    (fun _ => res_json (status_message 500 "Login failed")).

(** [authenticationKey] is [req.body.authentication_key]. *)
Definition logoutUser (authenticationKey : string) : M unit :=
  try_catch
    (user <- getByAuthenticationKey authenticationKey ;;
     match user with
     | Some user =>
         let user := set_authentication_key KeyNull user in
         update (Some user) ;;
         res_json (status_message 200 "User has been logged out.")
     | None => res_json (status_message 404 "User was not found.")
     end)
    (fun _ => res_json (status_message 500 "Failed to logout user.")).

(** [userData] is [req.body]. *)
Definition registerUser (userData : UserObject) : M unit :=
  try_catch
    (userAlreadyExists <- getByEmail (email userData) ;;
     match userAlreadyExists with
     | Some _ =>
         res_json (status_message 409
           "The provided email address is already associated with another account.")
     | None =>
         hashedPassword <- hashSync (password userData) ;;
         creationDate <- new_Date ;;
         let newUser :=
           mkUser None (email userData) hashedPassword student KeyAbsent
                  (Some creationDate) None in
         create newUser ;;
         res_json (status_message 200 "Registration successful.")
     end)
    (fun _ => res_json (status_message 500 "Registration failed.")).

(** ** controllers/users.ts

    [userId] is the outcome of [new ObjectId(req.params.id)]: [None] when the
    constructor throws on a malformed string. *)

Definition updateUserById (userId : option ObjectId) (userData : UserObject)
  : M unit :=
  userData <-
    (if truthy (password userData) && negb (startsWith (password userData) "$2a")
     then
       h <- bcrypt_hash_salted 10 (password userData) ;;
       ret (set_password h userData)
     else ret userData) ;;
  objectId <-
    match userId with
    | Some i => ret i
    | None => throw "BSONError"
    end ;;
  try_catch
    (user <- updateUser objectId userData ;;
     (if Nat.eqb user 0 then res_json (status_message 404 "User not found")
      else ret tt) ;;
     res_json (mkResponse 200
       [("status", JNum 200);
        ("message", JStr "Successfully updated the entire user");
        ("user", JUpdateResult user)]))
    (fun _ => res_json (status_message 500 "Failed to update the entire user")).

End Program.

(** ** Vocabulary of the statements *)

(** What MongoDB guarantees of a collection: every document has an [_id] and
    no two documents share one. *)
Definition wf_users (l : list UserObject) : Prop :=
  NoDup (map _id l) /\ Forall (fun u => _id u <> None) l.

(** No document of the collection holds the key [t]. *)
Definition unused_key (t : string) (l : list UserObject) : Prop :=
  forall v, In v l -> has_key t v = false.

(** The record [loginUser] hands to [update]: the one it read, with the new
    key and the login time. *)
Definition logged_in (t : string) (now : Z) (u : UserObject) : UserObject :=
  set_last_login (Some (JsDate now)) (set_authentication_key (KeyString t) u).

(** A status of the 5xx band: the controllers answer a failing store with
    500. *)
Definition internal_error (r : Response) : bool :=
  (500 <=? statusCode r)%Z && (statusCode r <? 600)%Z.

(** ** A small environment and collection to run the handlers on *)

Definition demo_hash (rounds : nat) (salt plain : string) : string :=
  "$2a$10$" ++ salt ++ plain.

Definition demo_env : Env :=
  mkEnv (fun _ => false)
        (fun n => "uuid-" ++ String (ascii_of_nat (48 + n)) "")
        (fun n => 1700000000000 + Z.of_nat n)%Z
        (fun _ => "NaCl")
        (fun n => (100 + N.of_nat n)%N)
        demo_hash
        (fun plain hash => String.eqb hash (demo_hash 10 "NaCl" plain)).

(** The same environment with a store whose every call rejects. *)
Definition failing_env : Env :=
  mkEnv (fun _ => true) (uuid_at demo_env) (date_at demo_env)
        (salt_at demo_env) (oid_at demo_env) (bcrypt_hash demo_env)
        (bcrypt_compare demo_env).


(** The demo environment with a store that rejects its call number [n],
    counted from 0, and no other. *)
Definition failing_at (n : nat) : Env :=
  mkEnv (fun k => Nat.eqb k n) (uuid_at demo_env) (date_at demo_env)
        (salt_at demo_env) (oid_at demo_env) (bcrypt_hash demo_env)
        (bcrypt_compare demo_env).

Definition alice : UserObject :=
  mkUser (Some 1%N) "a@test.com" (demo_hash 10 "NaCl" "abc123") student
         KeyAbsent (Some (JsDate 1600000000000)) None.

Definition bob : UserObject :=
  mkUser (Some 2%N) "b@test.com" (demo_hash 10 "NaCl" "hunter2") teacher
         (KeyString "bob-key") (Some (JsDate 1600000000001))
         (Some (JsDate 1650000000000)).

Definition demo_world : World := mkWorld [alice; bob] None false 0 0 0 0 0.

(** ** The rest of models/user.ts and controllers/users.ts

    The bulk operations, the lookup and deletion by id, and the archive in
    the [changelog] collection. *)

Definition set_role (r : Role) (u : UserObject) : UserObject :=
  mkUser (_id u) (email u) (password u) r (authentication_key u)
         (creation_date u) (last_login u).

(** A route parameter that is to become an ObjectId: the string of the
    request and what [new ObjectId(..)] makes of it, [None] when the
    constructor throws. *)
Record IdParam : Type := mkIdParam {
  raw : string;
  parsed : option ObjectId
}.

(** The filter [{ $gte: start, $lte: end }] on a date field: BSON compares a
    date only with a date, so a missing field and a string never match. *)
Definition date_between (start stop : Z) (d : option DateValue) : bool :=
  match d with
  | Some (JsDate ms) => (start <=? ms)%Z && (ms <=? stop)%Z
  | _ => false
  end.

(** The string a role is stored as, [types/users.ts]. *)
Definition Role_string (r : Role) : string :=
  match r with
  | student => "student"
  | teacher => "teacher"
  | sensor => "sensor"
  end.

(** [{ role: { $in: ["student", ""] }, last_login: { $gte, $lte } }] *)
Definition student_last_seen (start stop : Z) (u : UserObject) : bool :=
  existsb (String.eqb (Role_string (role u))) ["student"; ""]
  && date_between start stop (last_login u).

(** [{ role: { $in: ["student", "teacher", "sensor"] },
       creation_date: { $gte, $lte } }] *)
Definition created_between (start stop : Z) (u : UserObject) : bool :=
  (Role_eqb (role u) student || Role_eqb (role u) teacher
   || Role_eqb (role u) sensor)
  && date_between start stop (creation_date u).

(** Remove the first document the filter holds of. *)
Fixpoint remove_first (filter : UserObject -> bool) (l : list UserObject)
  : list UserObject :=
  match l with
  | [] => []
  | u :: rest => if filter u then rest else u :: remove_first filter rest
  end.

(** [$set: { role: r }] on every document the filter holds of; returns
    [matchedCount] and [modifiedCount], the latter counting the documents
    whose role was another one. *)
Fixpoint set_role_where (filter : UserObject -> bool) (r : Role)
  (l : list UserObject) : (nat * nat) * list UserObject :=
  match l with
  | [] => ((0, 0), [])
  | u :: rest =>
      let '((matched, modified), rest') := set_role_where filter r rest in
      if filter u then
        ((S matched, if Role_eqb (role u) r then modified else S modified),
         set_role r u :: rest')
      else ((matched, modified), u :: rest')
  end.

Record ChangelogEntry : Type := mkEntry {
  entry_id : ObjectId;
  deleted_user_details : UserObject;
  deletion_date_time : DateValue
}.

(** The state with the second collection, [db.collection("changelog")]. *)
Record Store : Type := mkStore {
  main : World;
  changelog : list ChangelogEntry
}.

Definition MS (A : Type) : Type := Store -> Result A * Store.

(** A program on the [users] collection, run in the larger state. *)
Definition lift {A} (m : M A) : MS A :=
  fun s => let (r, w) := m (main s) in (r, mkStore w (changelog s)).

Definition bindS {A B} (m : MS A) (k : A -> MS B) : MS B :=
  fun s =>
    match m s with
    | (Ok a, s') => k a s'
    | (Throw e, s') => (Throw e, s')
    end.

Definition try_catchS {A} (m : MS A) (h : string -> MS A) : MS A :=
  fun s =>
    match m s with
    | (Ok a, s') => (Ok a, s')
    | (Throw e, s') => h e s'
    end.

(** Run a handler of the larger state on a new request. *)
Definition handleS (h : MS unit) (s : Store) : Store :=
  snd (h (mkStore (fresh_request (main s)) (changelog s))).

Section MoreProgram.

Variable E : Env.

Definition deleteOne (filter : UserObject -> bool) : M nat :=
  driver_call E (fun us =>
    (Ok (if existsb filter us then 1 else 0), remove_first filter us)).

Definition deleteMany (filter : UserObject -> bool) : M nat :=
  driver_call E (fun us =>
    (Ok (length (List.filter filter us)),
     List.filter (fun u => negb (filter u)) us)).

Definition updateMany_set_role (filter : UserObject -> bool) (r : Role)
  : M (nat * nat) :=
  driver_call E (fun us =>
    let (counts, us') := set_role_where filter r us in (Ok counts, us')).

(** [new ObjectId(id)] on a route parameter. *)
Definition ObjectId_of_param (id : IdParam) : M ObjectId :=
  match parsed id with
  | Some i => ret i
  | None => throw "BSONError"
  end.

Definition getById (id : IdParam) : M (option UserObject) :=
  try_catch
    (objectId <- ObjectId_of_param id ;;
     findOne E (has_id objectId))
    (fun _ => throw ("user not found with id: " ++ raw id)).

Definition deleteById (id : IdParam) : M nat :=
  objectId <- ObjectId_of_param id ;;
  deleteOne (has_id objectId).

(** [start] and [stop] are the times of [new Date(start_date)] and
    [new Date(end_date)]. *)
Definition deleteStudents (start stop : Z) : M nat :=
  deleteMany (student_last_seen start stop).

Definition updateUserRole (start stop : Z) (new_role : Role) : M (nat * nat) :=
  updateMany_set_role (created_between start stop) new_role.

(** One call to the driver on the [changelog] collection. *)
Definition changelog_call {A}
  (op : list ChangelogEntry -> Result A * list ChangelogEntry) : MS A :=
  fun s =>
    let w := main s in
    let w' := mkWorld (users w) (sent w) (next_called w) (S (driver_calls w))
                      (uuid_calls w) (date_calls w) (salt_calls w) (oid_calls w) in
    if driver_fails E (driver_calls w) then (Throw "MongoError", mkStore w' (changelog s))
    else let (r, cl) := op (changelog s) in (r, mkStore w' cl).

Definition archiveUserInChangelog (user : UserObject) : MS ObjectId :=
  bindS (lift (new_Date E)) (fun now =>
  bindS (lift (generate_ObjectId E)) (fun i =>
  changelog_call (fun cl =>
    if existsb (fun e => N.eqb (entry_id e) i) cl
    then (Throw "E11000 duplicate key error", cl)
    else (Ok i, (cl ++ [mkEntry i user now])%list)))).

(** controllers/users.ts *)

Definition deleteUserById (userId : IdParam) : MS unit :=
  try_catchS
    (bindS (lift (getById userId)) (fun userToDelete =>
     match userToDelete with
     | None => lift (res_json (status_message 404 "No user found with that ID"))
     | Some userToDelete =>
         bindS (archiveUserInChangelog userToDelete) (fun _ =>
         bindS (lift (deleteById userId)) (fun deletedCount =>
         if Nat.ltb 0 deletedCount then
           lift (res_json (status_message 200
                   "The user has been removed successfully."))
         else
           lift (res_json (status_message 404 "User not found with that ID"))))
     end))
    (fun _ => lift (res_json (status_message 500 "Failed to delete the user"))).

Definition deleteStudentsBetweenTwoLastLoginDates (start stop : Z) : M unit :=
  deletedCount <- deleteStudents start stop ;;
  if Nat.ltb 0 deletedCount then
    res_json (status_message 200 "The users have been removed successfully.")
  else
    res_json (status_message 404
      "Users with the student role not found between the given dates").

Definition updateUserRoleBetweenTwoCreationDates (start stop : Z)
  (new_role : Role) : M unit :=
  updateResult <- updateUserRole start stop new_role ;;
  if Nat.ltb 0 (snd updateResult) then
    res_json (mkResponse 200
      [("status", JNum 200);
       ("message", JStr "Updated student roles successfully.");
       ("updateResult", JUpdateResult (fst updateResult))])
  else
    res_json (status_message 404
      "No users found within the specified date range").

(** ** routes/auth.ts and routes/users.js

    A guarded route: Express runs the controller when the guard calls
    [next()]; the controllers are [async], so what they throw does not reach
    the guard's [catch]. *)
Definition route (guard : M unit) (controller : MS unit) : MS unit :=
  bindS (lift guard) (fun _ =>
    fun s => if next_called (main s) then controller s else (Ok tt, s)).

Inductive Request : Type :=
| POST_auth_login (loginData : option LoginRequestBody)
| POST_auth_register (userData : UserObject)
| POST_auth_logout (authentication_key : string)
| PUT_users_id (x_auth_key : option string) (id : option ObjectId)
               (userData : UserObject)
| PATCH_users_updateUserRoles (x_auth_key : option string) (start stop : Z)
                              (new_role : Role)
| DELETE_users_id (x_auth_key : option string) (id : IdParam)
| DELETE_users_delete_students (x_auth_key : option string) (start stop : Z).

Definition serve (r : Request) : MS unit :=
  match r with
  | POST_auth_login loginData => lift (loginUser E loginData)
  | POST_auth_register userData => lift (registerUser E userData)
  | POST_auth_logout key => lift (logoutUser E key)
  | PUT_users_id x id userData =>
      route (auth E [teacher] x) (lift (updateUserById E id userData))
  | PATCH_users_updateUserRoles x start stop new_role =>
      route (auth E [teacher] x)
            (lift (updateUserRoleBetweenTwoCreationDates start stop new_role))
  | DELETE_users_id x id => route (auth E [teacher] x) (deleteUserById id)
  | DELETE_users_delete_students x start stop =>
      route (auth E [teacher] x)
            (lift (deleteStudentsBetweenTwoLastLoginDates start stop))
  end.

(** The state after a sequence of requests, served one after the other. *)
Fixpoint serve_all (rs : list Request) (s : Store) : Store :=
  match rs with
  | [] => s
  | r :: rest => serve_all rest (handleS (serve r) s)
  end.

End MoreProgram.

(** The fields of a record that only [PUT /users/:id] and the role update
    write. *)
Definition same_account (u u' : UserObject) : Prop :=
  _id u' = _id u /\ email u' = email u /\ password u' = password u /\
  role u' = role u /\ creation_date u' = creation_date u.

(** The record [registerUser] inserts. *)
Definition registered E (w : World) (userData : UserObject) : UserObject :=
  mkUser (Some (oid_at E (oid_calls w))) (email userData)
         (bcrypt_hash E 10 (salt_at E (salt_calls w)) (password userData))
         student KeyAbsent (Some (JsDate (date_at E (date_calls w)))) None.

(** Does the key presented resolve to a user whose role is allowed? *)
Definition key_allowed (roles : AllowedRoles) (x : option string)
  (l : list UserObject) : bool :=
  match x with
  | Some k =>
      truthy k &&
      match find (has_key k) l with
      | Some u => includes roles (role u)
      | None => false
      end
  | None => false
  end.

(** Does the guard call [next()]: the key resolves to an allowed user and
    the store answers the lookup. *)
Definition guard_passes E (roles : AllowedRoles) (x : option string)
  (w : World) : bool :=
  key_allowed roles x (users w) && negb (driver_fails E (driver_calls w)).

(** The [X-AUTH-KEY] header of a request to a guarded route. *)
Definition presented_key (r : Request) : option (option string) :=
  match r with
  | PUT_users_id x _ _ | PATCH_users_updateUserRoles x _ _ _
  | DELETE_users_id x _ | DELETE_users_delete_students x _ _ => Some x
  | POST_auth_login _ | POST_auth_register _ | POST_auth_logout _ => None
  end.

(** A teacher with a session, for the guarded routes. *)
Definition carol : UserObject :=
  mkUser (Some 3%N) "c@test.com" (demo_hash 10 "NaCl" "chalk") teacher
         (KeyString "carol-key") (Some (JsDate 1600000000002))
         (Some (JsDate 1650000000001)).

(** A student who logged in once. *)
Definition dave : UserObject :=
  mkUser (Some 4%N) "d@test.com" (demo_hash 10 "NaCl" "pencil") student
         KeyNull (Some (JsDate 1600000000003)) (Some (JsDate 1650000000002)).

Definition demo_store : Store :=
  mkStore (mkWorld [alice; bob; carol; dave] None false 0 0 0 0 0) [].

(** Unfold a handler down to the state it returns. *)
Ltac run :=
  unfold handle, loginUser, logoutUser, registerUser, updateUserById, auth,
    getByEmail, getByAuthenticationKey, create, update, updateUser,
    insertOne, replaceOne, findOne, new_ObjectId, generate_ObjectId,
    hashSync, bcrypt_hash_salted, uuid4, new_Date, driver_call,
    try_catch, bind, ret, throw, res_json, next, fresh_request, with_users;
  cbn [users sent next_called driver_calls uuid_calls date_calls salt_calls
       oid_calls fst snd].

(** * Facts about the collection *)

Lemma has_id_true i u : has_id i u = true <-> _id u = Some i.
Proof.
  unfold has_id. destruct (_id u) as [j|]; split; intro H; try discriminate.
  - apply N.eqb_eq in H. now subst.
  - injection H as ->. apply N.eqb_refl.
Qed.

Lemma has_id_set_id i d : has_id i (set_id (Some i) d) = true.
Proof. apply has_id_true. reflexivity. Qed.

Lemma wf_users_cons u l :
  wf_users (u :: l) <-> (~ In (_id u) (map _id l) /\ _id u <> None /\ wf_users l).
Proof.
  unfold wf_users. cbn [map]. split.
  - intros [Hn Hf]. inversion Hn; subst. inversion Hf; subst. tauto.
  - intros (Hn & Hu & Hd & Hf). split; constructor; assumption.
Qed.

Lemma replace_first_matched i d l u :
  In u l -> _id u = Some i -> fst (replace_first i d l) = 1%nat.
Proof.
  induction l as [|v l IH]; cbn [replace_first In]; [tauto|].
  intros [->|Hin] Hid.
  - apply has_id_true in Hid. now rewrite Hid.
  - destruct (has_id i v); [reflexivity|].
    specialize (IH Hin Hid). destruct (replace_first i d l). exact IH.
Qed.

Lemma replace_first_unmatched i d l :
  (forall u, In u l -> has_id i u = false) -> replace_first i d l = (0%nat, l).
Proof.
  induction l as [|v l IH]; cbn [replace_first]; [reflexivity|].
  intros H. rewrite (H v (or_introl eq_refl)).
  rewrite IH; [reflexivity|]. intros u Hu. apply H. now right.
Qed.

Lemma replace_first_ids i d l :
  map _id (snd (replace_first i d l)) = map _id l.
Proof.
  induction l as [|v l IH]; cbn [replace_first]; [reflexivity|].
  destruct (has_id i v) eqn:Hv.
  - apply has_id_true in Hv. cbn. now rewrite Hv.
  - destruct (replace_first i d l). cbn in *. now rewrite IH.
Qed.

Lemma replace_first_wf i d l :
  wf_users l -> wf_users (snd (replace_first i d l)).
Proof.
  induction l as [|v l IH]; cbn [replace_first]; [trivial|].
  intros Hwf. apply wf_users_cons in Hwf as (Hn & Hv & Hl).
  destruct (has_id i v) eqn:E1.
  - apply has_id_true in E1. cbn [snd]. apply wf_users_cons.
    cbn [set_id _id]. rewrite <- E1. auto.
  - specialize (IH Hl). pose proof (replace_first_ids i d l) as Hids.
    destruct (replace_first i d l) as [n l']. cbn [snd] in *.
    apply wf_users_cons. rewrite Hids. auto.
Qed.

(** Looking up [i] after replacing the document [i] finds the replacement. *)
Lemma find_id_replace_same i d l u :
  In u l -> _id u = Some i ->
  find (has_id i) (snd (replace_first i d l)) = Some (set_id (Some i) d).
Proof.
  induction l as [|v l IH]; cbn [replace_first In]; [tauto|].
  intros Hin Hid. destruct (has_id i v) eqn:Hv.
  - cbn [snd find]. now rewrite has_id_set_id.
  - destruct Hin as [->|Hin].
    + apply has_id_true in Hid. congruence.
    + specialize (IH Hin Hid). destruct (replace_first i d l) as [n l'].
      cbn [snd find] in *. now rewrite Hv.
Qed.

(** Looking up another id is not affected by the replacement. *)
Lemma find_id_replace_other i j d l :
  j <> i ->
  find (has_id j) (snd (replace_first i d l)) = find (has_id j) l.
Proof.
  intros Hji. induction l as [|v l IH]; cbn [replace_first]; [reflexivity|].
  destruct (has_id i v) eqn:Hv.
  - cbn [snd find]. apply has_id_true in Hv.
    assert (has_id j v = false) as ->.
    { destruct (has_id j v) eqn:Hj; [|reflexivity].
      apply has_id_true in Hj. congruence. }
    assert (has_id j (set_id (Some i) d) = false) as ->.
    { destruct (has_id j (set_id (Some i) d)) eqn:Hj; [|reflexivity].
      apply has_id_true in Hj. cbn in Hj. congruence. }
    reflexivity.
  - destruct (replace_first i d l) as [n l']. cbn [snd find] in *.
    now rewrite IH.
Qed.

Lemma find_all_false (P : UserObject -> bool) l :
  (forall v, In v l -> P v = false) -> find P l = None.
Proof.
  induction l as [|v l IH]; cbn [find]; [reflexivity|].
  intros H. rewrite (H v (or_introl eq_refl)). apply IH.
  intros x Hx. apply H. now right.
Qed.


(** A filter that holds of no document of the collection finds the
    replacement when it holds of it, and nothing otherwise. *)
Lemma find_replace_fresh (P : UserObject -> bool) i d l u :
  (forall v, In v l -> P v = false) -> In u l -> _id u = Some i ->
  find P (snd (replace_first i d l)) =
  if P (set_id (Some i) d) then Some (set_id (Some i) d) else None.
Proof.
  induction l as [|v l IH]; cbn [replace_first In]; [tauto|].
  intros Hall Hin Hid. destruct (has_id i v) eqn:Hiv.
  - cbn [snd find]. destruct (P (set_id (Some i) d)); [reflexivity|].
    apply find_all_false. intros x Hx. apply Hall. now right.
  - destruct Hin as [->|Hin].
    + apply has_id_true in Hid. congruence.
    + assert (IH' := IH (fun x Hx => Hall x (or_intror Hx)) Hin Hid).
      destruct (replace_first i d l) as [n l']. cbn [snd find] in *.
      now rewrite (Hall v (or_introl eq_refl)).
Qed.

(** A filter that held of the replaced document only and fails of the
    replacement finds nothing. *)
Lemma find_replace_gone (P : UserObject -> bool) i d l :
  wf_users l ->
  (forall v, In v l -> P v = true -> _id v = Some i) ->
  P (set_id (Some i) d) = false ->
  find P (snd (replace_first i d l)) = None.
Proof.
  induction l as [|v l IH]; cbn [replace_first]; [reflexivity|].
  intros Hwf Honly Hd. apply wf_users_cons in Hwf as (Hn & Hv & Hl).
  destruct (has_id i v) eqn:Hiv.
  - cbn [snd find]. rewrite Hd. apply find_all_false. intros x Hx.
    destruct (P x) eqn:Px; [|reflexivity].
    exfalso. apply Hn. apply has_id_true in Hiv. rewrite Hiv.
    rewrite <- (Honly x (or_intror Hx) Px). now apply in_map.
  - specialize (IH Hl (fun x Hx => Honly x (or_intror Hx)) Hd).
    destruct (replace_first i d l) as [n l']. cbn [snd find] in *.
    destruct (P v) eqn:Pv; [|exact IH].
    pose proof (Honly v (or_introl eq_refl) Pv) as Hvi.
    apply has_id_true in Hvi. congruence.
Qed.

Lemma replace_first_In i d l v :
  In v (snd (replace_first i d l)) -> v = set_id (Some i) d \/ In v l.
Proof.
  induction l as [|x l IH]; cbn [replace_first]; [cbn; tauto|].
  destruct (has_id i x).
  - cbn [snd In]. intros [<-|H]; auto.
  - destruct (replace_first i d l) as [n l']. cbn [snd In] in *.
    intros [<-|H]; auto. destruct (IH H); auto.
Qed.

Lemma set_id_logged_in t now u i :
  _id u = Some i -> set_id (Some i) (set_id None (logged_in t now u)) = logged_in t now u.
Proof. destruct u; cbn. now intros ->. Qed.

Lemma includes_In roles r : includes roles r = true <-> In r roles.
Proof.
  unfold includes. rewrite existsb_exists. split.
  - intros (x & Hx & Heq). destruct r, x; (discriminate || exact Hx).
  - intros H. exists r. split; [exact H | now destruct r].
Qed.

Lemma wf_users_id l u : wf_users l -> In u l -> exists i, _id u = Some i.
Proof.
  intros [_ Hf] Hin. rewrite Forall_forall in Hf. specialize (Hf u Hin).
  destruct (_id u) as [i|]; [now exists i | congruence].
Qed.

Lemma demo_world_wf : wf_users (users demo_world).
Proof. split; cbn; repeat constructor; cbn; intuition discriminate. Qed.

Lemma append_wf l i d :
  wf_users l -> existsb (has_id i) l = false ->
  wf_users (l ++ [set_id (Some i) d]).
Proof.
  intros [Hn Hf] Hex. split.
  - rewrite map_app. cbn. apply NoDup_app; [exact Hn|repeat constructor; cbn; tauto|].
    intros x Hx [<-|[]]. apply in_map_iff in Hx as (v & Hv & Hin).
    assert (has_id i v = true) by now apply has_id_true.
    assert (existsb (has_id i) l = true) by (apply existsb_exists; eauto).
    congruence.
  - apply Forall_app. split; [exact Hf|]. repeat constructor. discriminate.
Qed.

(** * The handlers, run *)

(** ** The guard *)

Lemma auth_missing E roles w x :
  match x with Some k => truthy k = false | None => True end ->
  handle (auth E roles x) w =
  mkWorld (users w) (Some (status_message 401 "Authentication key missing"))
          false (driver_calls w) (uuid_calls w) (date_calls w) (salt_calls w)
          (oid_calls w).
Proof.
  intros H. run. destruct x as [k|]; [rewrite H|]; reflexivity.
Qed.

Lemma auth_lookup E roles w k :
  truthy k = true -> driver_fails E (driver_calls w) = false ->
  handle (auth E roles (Some k)) w =
  let allowed :=
    match find (has_key k) (users w) with
    | Some u => includes roles (role u)
    | None => false
    end in
  mkWorld (users w)
          (if allowed then None else Some (status_message 403 "Access forbidden"))
          allowed (S (driver_calls w)) (uuid_calls w) (date_calls w)
          (salt_calls w) (oid_calls w).
Proof.
  intros Hk Hd. run. rewrite Hk. cbn. rewrite Hd. cbn.
  destruct (find (has_key k) (users w)) as [u|]; [|reflexivity].
  destruct (includes roles (role u)); reflexivity.
Qed.

Lemma auth_lookup_rejects E roles w k :
  truthy k = true -> driver_fails E (driver_calls w) = true ->
  handle (auth E roles (Some k)) w =
  mkWorld (users w) (Some (status_message 401 "Authentication key invalid"))
          false (S (driver_calls w)) (uuid_calls w) (date_calls w)
          (salt_calls w) (oid_calls w).
Proof. intros Hk Hd. run. rewrite Hk. cbn. rewrite Hd. reflexivity. Qed.

(** A key that no document holds never reaches the downstream handler,
    whatever the store does. *)
Lemma auth_unresolved_stops E roles w x :
  (forall k, x = Some k -> find (has_key k) (users w) = None) ->
  next_called (handle (auth E roles x) w) = false.
Proof.
  intros H. destruct x as [k|]; [|now rewrite auth_missing].
  destruct (truthy k) eqn:Hk; [|now rewrite auth_missing].
  destruct (driver_fails E (driver_calls w)) eqn:Hd.
  - now rewrite auth_lookup_rejects.
  - rewrite auth_lookup by assumption. now rewrite (H k eq_refl).
Qed.

(** ** Login *)

Lemma loginUser_success E w e pw u i :
  driver_fails E (driver_calls w) = false ->
  driver_fails E (S (driver_calls w)) = false ->
  find (has_email e) (users w) = Some u -> _id u = Some i ->
  bcrypt_compare E pw (password u) = true ->
  handle (loginUser E (Some (mkLogin e pw))) w =
  mkWorld
    (snd (replace_first i
            (set_id None (logged_in (uuid_at E (uuid_calls w))
                                    (date_at E (date_calls w)) u))
            (users w)))
    (Some (login_response (uuid_at E (uuid_calls w)))) false
    (S (S (driver_calls w))) (S (uuid_calls w)) (S (date_calls w))
    (salt_calls w) (oid_calls w).
Proof.
  intros F1 F2 Hf Hid Hc. run. rewrite F1. cbn. rewrite Hf. cbn.
  rewrite Hc. cbn. rewrite Hid. cbn. rewrite F2. unfold logged_in.
  destruct (replace_first _ _ _). reflexivity.
Qed.

(** The only way to a 200 from [loginUser]. *)
Lemma loginUser_inv E w loginData r :
  sent (handle (loginUser E loginData) w) = Some r -> statusCode r = 200%Z ->
  exists e pw u,
    loginData = Some (mkLogin e pw) /\
    driver_fails E (driver_calls w) = false /\
    driver_fails E (S (driver_calls w)) = false /\
    find (has_email e) (users w) = Some u /\
    bcrypt_compare E pw (password u) = true.
Proof.
  destruct loginData as [[e pw]|]; run.
  2:{ cbn. intros [= <-]. discriminate. }
  destruct (driver_fails E (driver_calls w)) eqn:F1; cbn.
  { intros [= <-]. discriminate. }
  destruct (find (has_email e) (users w)) as [u|] eqn:Hf; cbn.
  2:{ intros [= <-]. discriminate. }
  destruct (bcrypt_compare E pw (password u)) eqn:Hc; cbn.
  2:{ intros [= <-]. discriminate. }
  destruct (driver_fails E (S (driver_calls w))) eqn:F2.
  { destruct (_id u); cbn; rewrite F2; cbn; intros [= <-]; discriminate. }
  intros _ _. exists e, pw, u. auto.
Qed.

Lemma has_key_logged_in t now u i :
  has_key t (set_id (Some i) (set_id None (logged_in t now u))) = true.
Proof. unfold has_key. cbn. apply String.eqb_refl. Qed.

Lemma truthy_true k : truthy k = true <-> k <> "".
Proof.
  unfold truthy. rewrite negb_true_iff. split.
  - intros H ->. discriminate.
  - intros H. destruct (String.eqb_spec k ""); congruence.
Qed.

(** ** The invariant of the collection *)

(** Case analysis on everything a handler branches on. *)
Ltac split_state :=
  repeat match goal with
  | |- context [driver_fails ?E ?n] => destruct (driver_fails E n); cbn
  | |- context [match find ?P ?l with _ => _ end] => destruct (find P l); cbn
  | |- context [if bcrypt_compare ?E ?a ?b then _ else _] =>
      destruct (bcrypt_compare E a b); cbn
  | |- context [negb (bcrypt_compare ?E ?a ?b)] =>
      destruct (bcrypt_compare E a b); cbn
  | |- context [match _id ?u with _ => _ end] => destruct (_id u); cbn
  | |- context [existsb ?P ?l] =>
      let H := fresh "Hex" in destruct (existsb P l) eqn:H; cbn
  | |- context [replace_first ?i ?d ?l] =>
      let H := fresh "Hrf" in
      pose proof (replace_first_wf i d l) as H;
      destruct (replace_first i d l); cbn in *
  | |- context [Nat.eqb ?n 0] => destruct (Nat.eqb n 0); cbn
  | |- context [includes ?r ?x] => destruct (includes r x); cbn
  end.

Lemma loginUser_wf E w loginData :
  wf_users (users w) -> wf_users (users (handle (loginUser E loginData) w)).
Proof.
  intros Hwf. destruct loginData as [[e pw]|]; run; cbn; [|exact Hwf].
  split_state; auto.
Qed.

Lemma logoutUser_wf E w key :
  wf_users (users w) -> wf_users (users (handle (logoutUser E key) w)).
Proof. intros Hwf. run. split_state; auto. Qed.

Lemma registerUser_wf E w userData :
  wf_users (users w) -> wf_users (users (handle (registerUser E userData) w)).
Proof.
  intros Hwf. run. split_state; auto. now apply append_wf.
Qed.

Lemma updateUserById_wf E w userId userData :
  wf_users (users w) ->
  wf_users (users (handle (updateUserById E userId userData) w)).
Proof.
  intros Hwf. run.
  destruct (truthy (password userData) && negb (startsWith (password userData) "$2a"));
    destruct userId; cbn; split_state; auto.
Qed.

Lemma auth_wf E w roles x :
  wf_users (users w) -> wf_users (users (handle (auth E roles x) w)).
Proof.
  intros Hwf. run. destruct x as [k|]; [|exact Hwf].
  destruct (truthy k); cbn; [|exact Hwf]. split_state; auto.
Qed.

(** * The properties of the specification *)

(** ** The guard on a key that resolves to nobody, and on a failing store *)

(** C1, at the failing input: no document of the demo collection holds the
    key ["no-such-key"], the store answers the lookup, and the guard writes
    403 "Access forbidden" where the specification has 401 "Authentication
    key invalid".  The downstream handler is not called. *)
Theorem auth_unknown_key_answers_403 :
  find (has_key "no-such-key") (users demo_world) = None /\
  driver_fails demo_env (driver_calls demo_world) = false /\
  sent (handle (auth demo_env [student; teacher; sensor] (Some "no-such-key"))
               demo_world)
  = Some (status_message 403 "Access forbidden") /\
  next_called (handle (auth demo_env [student; teacher; sensor]
                            (Some "no-such-key")) demo_world) = false.
Proof. repeat split. Qed.

(** The same for every collection, role list and key: when the lookup
    succeeds and returns no user, the answer is 403. *)
Lemma auth_unresolved_key E roles w k :
  truthy k = true -> driver_fails E (driver_calls w) = false ->
  find (has_key k) (users w) = None ->
  sent (handle (auth E roles (Some k)) w)
  = Some (status_message 403 "Access forbidden") /\
  next_called (handle (auth E roles (Some k)) w) = false.
Proof.
  intros Hk Hd Hf. rewrite auth_lookup by assumption. cbn. rewrite Hf. auto.
Qed.

(** C8, as stated, fails: with a store whose lookup rejects, the guard's
    answer to a request carrying bob's key is not in the 5xx band. *)
Lemma auth_store_failure_not_internal_error :
  driver_fails failing_env (driver_calls demo_world) = true /\
  option_map internal_error
    (sent (handle (auth failing_env [teacher] (Some "bob-key")) demo_world))
  = Some false.
Proof. split; reflexivity. Qed.

(** C8, amended: when the lookup by key itself fails, the guard answers
    401 "Authentication key invalid", the downstream handler is not called
    and the collection is untouched. *)
Theorem auth_store_failure_answers_401 E roles w k :
  truthy k = true -> driver_fails E (driver_calls w) = true ->
  sent (handle (auth E roles (Some k)) w)
  = Some (status_message 401 "Authentication key invalid") /\
  next_called (handle (auth E roles (Some k)) w) = false /\
  users (handle (auth E roles (Some k)) w) = users w.
Proof.
  intros Hk Hd. rewrite auth_lookup_rejects by assumption. cbn. auto.
Qed.

Lemma auth_store_failure_answers_401_witness :
  sent (handle (auth failing_env [teacher] (Some "bob-key")) demo_world)
  = Some (status_message 401 "Authentication key invalid") /\
  next_called (handle (auth failing_env [teacher] (Some "bob-key")) demo_world)
  = false /\
  users (handle (auth failing_env [teacher] (Some "bob-key")) demo_world)
  = users demo_world.
Proof.
  apply (auth_store_failure_answers_401 failing_env [teacher] demo_world "bob-key");
    reflexivity.
Defined.

(** ** Login followed by the guard *)

(** C2: a login with the email and a matching password of a stored user
    answers 200 with the new key, and the guard, given that key and a role
    list, calls the downstream handler exactly when the user's role is in
    the list; otherwise it answers 403 "Access forbidden".  The store
    answers its three calls, and the key [uuid4()] returns is not empty and
    not already held by a document. *)
Theorem login_then_authorize E w e pw u roles :
  wf_users (users w) ->
  find (has_email e) (users w) = Some u ->
  bcrypt_compare E pw (password u) = true ->
  (forall n, n < 3 -> driver_fails E (n + driver_calls w) = false) ->
  uuid_at E (uuid_calls w) <> "" ->
  unused_key (uuid_at E (uuid_calls w)) (users w) ->
  sent (handle (loginUser E (Some (mkLogin e pw))) w)
  = Some (login_response (uuid_at E (uuid_calls w))) /\
  (next_called (handle (auth E roles (Some (uuid_at E (uuid_calls w))))
                       (handle (loginUser E (Some (mkLogin e pw))) w)) = true
   <-> In (role u) roles) /\
  (In (role u) roles ->
   sent (handle (auth E roles (Some (uuid_at E (uuid_calls w))))
                (handle (loginUser E (Some (mkLogin e pw))) w)) = None) /\
  (~ In (role u) roles ->
   sent (handle (auth E roles (Some (uuid_at E (uuid_calls w))))
                (handle (loginUser E (Some (mkLogin e pw))) w))
   = Some (status_message 403 "Access forbidden") /\
   next_called (handle (auth E roles (Some (uuid_at E (uuid_calls w))))
                       (handle (loginUser E (Some (mkLogin e pw))) w)) = false).
Proof.
  intros Hwf Hf Hc Hd Ht Hfresh.
  pose proof (find_some _ _ Hf) as [Hin _].
  destruct (wf_users_id _ _ Hwf Hin) as [i Hid].
  pose proof (Hd 0 ltac:(lia)) as F0. pose proof (Hd 1 ltac:(lia)) as F1.
  pose proof (Hd 2 ltac:(lia)) as F2. cbn in F0, F1, F2.
  rewrite (loginUser_success E w e pw u i F0 F1 Hf Hid Hc).
  split; [reflexivity|].
  rewrite auth_lookup; [|now apply truthy_true|exact F2].
  cbn [users sent next_called].
  rewrite (find_replace_fresh _ i _ (users w) u Hfresh Hin Hid).
  rewrite has_key_logged_in. cbn [role set_id logged_in set_last_login
                                  set_authentication_key].
  pose proof (includes_In roles (role u)) as Hinc.
  destruct (includes roles (role u)).
  - assert (In (role u) roles) as Hy by now apply Hinc.
    split; [tauto|]. split; [reflexivity|]. intros Hn. contradiction.
  - assert (~ In (role u) roles) as Hn by (intros H; apply Hinc in H; discriminate).
    split; [split; [discriminate|contradiction]|].
    split; [contradiction|]. auto.
Qed.

Lemma login_then_authorize_witness :
  (next_called (handle (auth demo_env [student] (Some "uuid-0"))
                       (handle (loginUser demo_env (Some (mkLogin "a@test.com" "abc123")))
                               demo_world)) = true
   <-> In student [student]) /\
  (sent (handle (auth demo_env [teacher] (Some "uuid-0"))
                (handle (loginUser demo_env (Some (mkLogin "a@test.com" "abc123")))
                        demo_world))
   = Some (status_message 403 "Access forbidden")).
Proof.
  pose proof demo_world_wf as Hwf.
  assert (Hfresh : unused_key "uuid-0" (users demo_world)).
  { intros v [<-|[<-|[]]]; reflexivity. }
  split.
  - apply (login_then_authorize demo_env demo_world "a@test.com" "abc123" alice
             [student] Hwf eq_refl eq_refl); auto; discriminate.
  - apply (login_then_authorize demo_env demo_world "a@test.com" "abc123" alice
             [teacher] Hwf eq_refl eq_refl); auto; try discriminate.
    cbn. intuition discriminate.
Defined.

(** ** Logout followed by the guard *)

Lemma logoutUser_success E w t u i :
  driver_fails E (driver_calls w) = false ->
  driver_fails E (S (driver_calls w)) = false ->
  find (has_key t) (users w) = Some u -> _id u = Some i ->
  handle (logoutUser E t) w =
  mkWorld
    (snd (replace_first i (set_id None (set_authentication_key KeyNull u))
                        (users w)))
    (Some (status_message 200 "User has been logged out.")) false
    (S (S (driver_calls w))) (uuid_calls w) (date_calls w) (salt_calls w)
    (oid_calls w).
Proof.
  intros F1 F2 Hf Hid. run. rewrite F1. cbn. rewrite Hf. cbn. rewrite Hid.
  cbn. rewrite F2. destruct (replace_first _ _ _). reflexivity.
Qed.

(** After a logout that succeeded on a key held by one user only, the key
    resolves to nobody and the guard never calls the downstream handler. *)
Lemma logout_then_auth_stops E w t u roles x :
  wf_users (users w) ->
  driver_fails E (driver_calls w) = false ->
  driver_fails E (S (driver_calls w)) = false ->
  find (has_key t) (users w) = Some u ->
  (forall v, In v (users w) -> has_key t v = true -> v = u) ->
  x = Some t ->
  find (has_key t) (users (handle (logoutUser E t) w)) = None /\
  next_called (handle (auth E roles x) (handle (logoutUser E t) w)) = false.
Proof.
  intros Hwf F1 F2 Hf Huniq ->.
  pose proof (find_some _ _ Hf) as [Hin _].
  destruct (wf_users_id _ _ Hwf Hin) as [i Hid].
  rewrite (logoutUser_success E w t u i F1 F2 Hf Hid).
  assert (Hnone : find (has_key t)
            (snd (replace_first i (set_id None (set_authentication_key KeyNull u))
                                (users w))) = None).
  { apply find_replace_gone; [exact Hwf| |reflexivity].
    intros v Hv Hk. now rewrite (Huniq v Hv Hk). }
  split; [exact Hnone|].
  apply auth_unresolved_stops. intros k [= <-]. exact Hnone.
Qed.

(** C3, at the failing input: bob logs out with the key he holds and gets
    200; the guard, given that key afterwards, rejects for every role list,
    but with 403 "Access forbidden" where the specification has 401. *)
Theorem logout_then_auth_answers_403 (roles : AllowedRoles) :
  sent (handle (logoutUser demo_env "bob-key") demo_world)
  = Some (status_message 200 "User has been logged out.") /\
  sent (handle (auth demo_env roles (Some "bob-key"))
               (handle (logoutUser demo_env "bob-key") demo_world))
  = Some (status_message 403 "Access forbidden") /\
  next_called (handle (auth demo_env roles (Some "bob-key"))
                      (handle (logoutUser demo_env "bob-key") demo_world))
  = false.
Proof.
  split; [reflexivity|]. rewrite auth_lookup by reflexivity. split; reflexivity.
Qed.

(** ** Two logins in a row *)




(** ** Login failures *)

Lemma loginUser_no_user E w e pw :
  driver_fails E (driver_calls w) = false ->
  find (has_email e) (users w) = None ->
  handle (loginUser E (Some (mkLogin e pw))) w =
  mkWorld (users w) (Some (status_message 401 "Invalid credentials")) false
          (S (driver_calls w)) (uuid_calls w) (date_calls w) (salt_calls w)
          (oid_calls w).
Proof. intros F Hf. run. rewrite F. cbn. rewrite Hf. reflexivity. Qed.

Lemma loginUser_wrong_password E w e pw u :
  driver_fails E (driver_calls w) = false ->
  find (has_email e) (users w) = Some u ->
  bcrypt_compare E pw (password u) = false ->
  handle (loginUser E (Some (mkLogin e pw))) w =
  mkWorld (users w) (Some (status_message 401 "Invalid password")) false
          (S (driver_calls w)) (uuid_calls w) (date_calls w) (salt_calls w)
          (oid_calls w).
Proof.
  intros F Hf Hc. run. rewrite F. cbn. rewrite Hf. cbn. rewrite Hc. reflexivity.
Qed.

(** C5, as stated, fails: on the demo collection a login with an email that
    is absent and a login with alice's email and a wrong password are
    answered differently, so the caller can tell the two apart. *)
Lemma login_failures_distinguishable :
  find (has_email "nobody@test.com") (users demo_world) = None /\
  find (has_email "a@test.com") (users demo_world) = Some alice /\
  bcrypt_compare demo_env "wrong" (password alice) = false /\
  sent (handle (loginUser demo_env (Some (mkLogin "nobody@test.com" "wrong")))
               demo_world)
  <> sent (handle (loginUser demo_env (Some (mkLogin "a@test.com" "wrong")))
                  demo_world).
Proof. repeat split. discriminate. Qed.

(** C5, amended: a login with an absent email and a login with a present
    email and a password that does not match are both answered with status
    401 and a body of the same shape (the keys [status] and [message]); the
    messages are "Invalid credentials" for the first and "Invalid password"
    for the second.  Neither touches the collection. *)
Theorem login_failures_same_status_and_shape E w1 w2 e1 pw1 e2 pw2 u :
  driver_fails E (driver_calls w1) = false ->
  driver_fails E (driver_calls w2) = false ->
  find (has_email e1) (users w1) = None ->
  find (has_email e2) (users w2) = Some u ->
  bcrypt_compare E pw2 (password u) = false ->
  exists r1 r2,
    sent (handle (loginUser E (Some (mkLogin e1 pw1))) w1) = Some r1 /\
    sent (handle (loginUser E (Some (mkLogin e2 pw2))) w2) = Some r2 /\
    statusCode r1 = 401%Z /\ statusCode r2 = 401%Z /\
    shape r1 = ["status"; "message"] /\ shape r2 = ["status"; "message"] /\
    message_of r1 = Some (JStr "Invalid credentials") /\
    message_of r2 = Some (JStr "Invalid password") /\
    users (handle (loginUser E (Some (mkLogin e1 pw1))) w1) = users w1 /\
    users (handle (loginUser E (Some (mkLogin e2 pw2))) w2) = users w2.
Proof.
  intros F1 F2 Hf1 Hf2 Hc.
  rewrite (loginUser_no_user E w1 e1 pw1 F1 Hf1).
  rewrite (loginUser_wrong_password E w2 e2 pw2 u F2 Hf2 Hc).
  eexists _, _. repeat split.
Qed.

Lemma login_failures_same_status_and_shape_witness :
  exists r1 r2,
    sent (handle (loginUser demo_env (Some (mkLogin "nobody@test.com" "wrong")))
                 demo_world) = Some r1 /\
    sent (handle (loginUser demo_env (Some (mkLogin "a@test.com" "wrong")))
                 demo_world) = Some r2 /\
    statusCode r1 = 401%Z /\ statusCode r2 = 401%Z /\
    shape r1 = ["status"; "message"] /\ shape r2 = ["status"; "message"] /\
    message_of r1 = Some (JStr "Invalid credentials") /\
    message_of r2 = Some (JStr "Invalid password") /\
    users (handle (loginUser demo_env (Some (mkLogin "nobody@test.com" "wrong")))
                  demo_world) = users demo_world /\
    users (handle (loginUser demo_env (Some (mkLogin "a@test.com" "wrong")))
                  demo_world) = users demo_world.
Proof.
  apply (login_failures_same_status_and_shape demo_env demo_world demo_world
           "nobody@test.com" "wrong" "a@test.com" "wrong" alice);
    reflexivity.
Defined.

(** ** Registration *)

(** C6: a registration whose email is the email of a stored record leaves
    the collection as it was, and is answered with 409 when the store
    answers the lookup. *)
Theorem register_existing_email_conflict E w userData u :
  find (has_email (email userData)) (users w) = Some u ->
  users (handle (registerUser E userData) w) = users w /\
  (driver_fails E (driver_calls w) = false ->
   sent (handle (registerUser E userData) w)
   = Some (status_message 409
       "The provided email address is already associated with another account.")).
Proof.
  intros Hf. run. destruct (driver_fails E (driver_calls w)); cbn.
  - split; [reflexivity | discriminate].
  - rewrite Hf. cbn. split; reflexivity.
Qed.

Lemma register_existing_email_conflict_witness :
  users (handle (registerUser demo_env
                   (mkUser None "a@test.com" "s3cret" teacher KeyAbsent None None))
                demo_world) = users demo_world /\
  sent (handle (registerUser demo_env
                  (mkUser None "a@test.com" "s3cret" teacher KeyAbsent None None))
               demo_world)
  = Some (status_message 409
      "The provided email address is already associated with another account.").
Proof.
  destruct (register_existing_email_conflict demo_env demo_world
              (mkUser None "a@test.com" "s3cret" teacher KeyAbsent None None)
              alice eq_refl) as [Hu Hs].
  exact (conj Hu (Hs eq_refl)).
Defined.

(** C7: whenever [registerUser] answers 200, the collection has grown by
    exactly one record, at the end, whose email is the one supplied, whose
    role is [student] whatever role the request carried, whose password is
    the bcrypt hash of the supplied password and not the password itself,
    whose creation date is the time of the call, and which has no
    authentication key and no last login.  bcrypt never returns its
    input. *)
Theorem register_success_record E w userData r :
  (forall rounds salt plain, bcrypt_hash E rounds salt plain <> plain) ->
  sent (handle (registerUser E userData) w) = Some r ->
  statusCode r = 200%Z ->
  exists rec,
    users (handle (registerUser E userData) w) = (users w ++ [rec])%list /\
    find (has_email (email userData)) (users w) = None /\
    email rec = email userData /\
    role rec = student /\
    password rec
    = bcrypt_hash E 10 (salt_at E (salt_calls w)) (password userData) /\
    password rec <> password userData /\
    creation_date rec = Some (JsDate (date_at E (date_calls w))) /\
    authentication_key rec = KeyAbsent /\
    last_login rec = None /\
    _id rec = Some (oid_at E (oid_calls w)).
Proof.
  intros Hhash. run.
  destruct (driver_fails E (driver_calls w)); cbn.
  { intros [= <-]. discriminate. }
  destruct (find (has_email (email userData)) (users w)) eqn:Hf; cbn.
  { intros [= <-]. discriminate. }
  destruct (driver_fails E (S (driver_calls w))); cbn.
  { intros [= <-]. discriminate. }
  destruct (existsb (has_id (oid_at E (oid_calls w))) (users w)); cbn.
  { intros [= <-]. discriminate. }
  intros _ _. eexists. split; [reflexivity|]. cbn.
  repeat split. apply Hhash.
Qed.

Lemma string_length_append (s t : string) :
  String.length (s ++ t) = String.length s + String.length t.
Proof. induction s as [|c s IH]; cbn; [reflexivity | now rewrite IH]. Qed.

Lemma demo_hash_not_plain rounds salt plain : demo_hash rounds salt plain <> plain.
Proof.
  unfold demo_hash. intros H. apply (f_equal String.length) in H.
  rewrite !string_length_append in H. cbn in H. lia.
Qed.

Lemma register_success_record_witness :
  exists rec,
    users (handle (registerUser demo_env
                     (mkUser None "c@test.com" "s3cret" teacher
                             (KeyString "chosen") None None))
                  demo_world) = [alice; bob; rec] /\
    role rec = student /\ password rec = "$2a$10$NaCls3cret" /\
    authentication_key rec = KeyAbsent.
Proof.
  destruct (register_success_record demo_env demo_world
              (mkUser None "c@test.com" "s3cret" teacher (KeyString "chosen")
                      None None)
              (status_message 200 "Registration successful.")
              demo_hash_not_plain eq_refl eq_refl)
    as (rec & Hu & _ & _ & Hr & Hp & _ & _ & Hk & _).
  exists rec. exact (conj Hu (conj Hr (conj Hp Hk))).
Defined.

(** ** What a login changes *)

Lemma find_id_unique l u i :
  wf_users l -> In u l -> _id u = Some i -> find (has_id i) l = Some u.
Proof.
  induction l as [|v l IH]; cbn [In find]; [tauto|].
  intros Hwf Hin Hid. apply wf_users_cons in Hwf as (Hn & _ & Hl).
  destruct (has_id i v) eqn:Hv.
  - destruct Hin as [->|Hin]; [reflexivity|].
    apply has_id_true in Hv. exfalso. apply Hn. rewrite Hv, <- Hid.
    now apply in_map.
  - destruct Hin as [->|Hin]; [|now apply IH].
    apply has_id_true in Hid. congruence.
Qed.

(** C9: whenever [loginUser] answers 200, the record it read by email is
    the record stored under the same [_id] before the call, and the record
    stored under that [_id] afterwards has the same email, password hash,
    role and creation date; its key is the new key and its last login the
    time of the call.  The records under every other [_id], and the order
    of the collection, are as before. *)
Theorem login_changes_key_and_last_login_only E w loginData r :
  wf_users (users w) ->
  sent (handle (loginUser E loginData) w) = Some r ->
  statusCode r = 200%Z ->
  exists e pw u i u',
    loginData = Some (mkLogin e pw) /\
    find (has_email e) (users w) = Some u /\
    find (has_id i) (users w) = Some u /\
    find (has_id i) (users (handle (loginUser E loginData) w)) = Some u' /\
    _id u' = _id u /\
    email u' = email u /\
    password u' = password u /\
    role u' = role u /\
    creation_date u' = creation_date u /\
    authentication_key u' = KeyString (uuid_at E (uuid_calls w)) /\
    last_login u' = Some (JsDate (date_at E (date_calls w))) /\
    (forall j, j <> i ->
       find (has_id j) (users (handle (loginUser E loginData) w))
       = find (has_id j) (users w)) /\
    map _id (users (handle (loginUser E loginData) w)) = map _id (users w).
Proof.
  intros Hwf Hs Hr.
  destruct (loginUser_inv E w loginData r Hs Hr)
    as (e & pw & u & -> & F1 & F2 & Hf & Hc).
  pose proof (find_some _ _ Hf) as [Hin _].
  destruct (wf_users_id _ _ Hwf Hin) as [i Hid].
  rewrite (loginUser_success E w e pw u i F1 F2 Hf Hid Hc). cbn [users].
  exists e, pw, u, i,
    (logged_in (uuid_at E (uuid_calls w)) (date_at E (date_calls w)) u).
  split; [reflexivity|]. split; [exact Hf|].
  split; [now apply find_id_unique|].
  split.
  { rewrite (find_id_replace_same i _ (users w) u Hin Hid).
    now rewrite set_id_logged_in. }
  do 7 (split; [reflexivity|]).
  split.
  - intros j Hj. now apply find_id_replace_other.
  - apply replace_first_ids.
Qed.

Lemma login_changes_key_and_last_login_only_witness :
  exists u',
    find (has_id 1%N)
         (users (handle (loginUser demo_env (Some (mkLogin "a@test.com" "abc123")))
                        demo_world)) = Some u' /\
    email u' = email alice /\ password u' = password alice /\
    role u' = role alice /\ creation_date u' = creation_date alice /\
    authentication_key u' = KeyString "uuid-0".
Proof.
  destruct (login_changes_key_and_last_login_only demo_env demo_world
              (Some (mkLogin "a@test.com" "abc123")) (login_response "uuid-0")
              demo_world_wf eq_refl eq_refl)
    as (e & pw & u & i & u' & Hl & Hf & Hfi & Hu' & _ & He & Hp & Hr & Hc & Hk & _).
  injection Hl as <- <-. injection Hf as <-.
  assert (Hi : Some 1%N = Some i).
  { apply find_some in Hfi as [_ Hfi]. now apply has_id_true in Hfi. }
  injection Hi as <-. exists u'. exact (conj Hu' (conj He (conj Hp (conj Hr (conj Hc Hk))))).
Defined.

(** ** PUT /users/:id *)

Lemma updateUserById_stored E w i userData u :
  In u (users w) -> _id u = Some i ->
  driver_fails E (driver_calls w) = false ->
  handle (updateUserById E (Some i) userData) w =
  let stored :=
    if truthy (password userData) && negb (startsWith (password userData) "$2a")
    then set_password (bcrypt_hash E 10 (salt_at E (salt_calls w))
                                   (password userData)) userData
    else userData in
  mkWorld (snd (replace_first i (set_id None stored) (users w)))
          (Some (mkResponse 200
             [("status", JNum 200);
              ("message", JStr "Successfully updated the entire user");
              ("user", JUpdateResult 1)]))
          false (S (driver_calls w)) (uuid_calls w) (date_calls w)
          (if truthy (password userData)
              && negb (startsWith (password userData) "$2a")
           then S (salt_calls w) else salt_calls w)
          (oid_calls w).
Proof.
  intros Hin Hid F. run.
  destruct (truthy (password userData) && negb (startsWith (password userData) "$2a"));
    cbn; rewrite F;
    match goal with |- context [replace_first i ?d (users w)] =>
      pose proof (replace_first_matched i d (users w) u Hin Hid) as Hm;
      destruct (replace_first i d (users w)) as [n l']
    end; cbn in Hm; subst n; reflexivity.
Qed.

(** C10: when [PUT /users/:id] reaches a stored record, the password it
    stores is the bcrypt hash of the supplied one if that is not empty and
    does not start with "$2a"; an empty password and a password that starts
    with "$2a" are stored as supplied. *)
Theorem update_hashes_unless_empty_or_2a E w i userData u :
  In u (users w) -> _id u = Some i ->
  driver_fails E (driver_calls w) = false ->
  exists rec,
    find (has_id i) (users (handle (updateUserById E (Some i) userData) w))
    = Some rec /\
    (password userData <> "" ->
     String.prefix "$2a" (password userData) = false ->
     password rec
     = bcrypt_hash E 10 (salt_at E (salt_calls w)) (password userData)) /\
    (password userData = "" -> password rec = "") /\
    (String.prefix "$2a" (password userData) = true ->
     password rec = password userData).
Proof.
  intros Hin Hid F. rewrite (updateUserById_stored E w i userData u Hin Hid F).
  cbn [users]. rewrite (find_id_replace_same i _ (users w) u Hin Hid).
  eexists. split; [reflexivity|]. unfold startsWith.
  destruct (truthy (password userData)) eqn:Ht;
    destruct (String.prefix "$2a" (password userData)) eqn:Hp; cbn;
    repeat split; try congruence; try discriminate.
  all: try (intros He; rewrite He in Ht; discriminate).
  all: intros Hne; apply truthy_true in Hne; congruence.
Qed.

Lemma update_hashes_unless_empty_or_2a_witness :
  exists rec,
    find (has_id 1%N)
         (users (handle (updateUserById demo_env (Some 1%N)
                           (mkUser None "a@test.com" "$2a-is-my-password"
                                   student KeyAbsent None None))
                        demo_world)) = Some rec /\
    password rec = "$2a-is-my-password".
Proof.
  destruct (update_hashes_unless_empty_or_2a demo_env demo_world 1%N
              (mkUser None "a@test.com" "$2a-is-my-password" student KeyAbsent
                      None None)
              alice (or_introl eq_refl) eq_refl eq_refl)
    as (rec & Hf & _ & _ & Hv).
  exists rec. exact (conj Hf (Hv eq_refl)).
Defined.

(** * Further properties of the guard *)

(** X1: a request without the header, or with an empty one, is answered
    401 "Authentication key missing" without any call to the store; the
    downstream handler is not called. *)
Theorem auth_missing_or_empty_key E roles w x :
  x = None \/ x = Some "" ->
  sent (handle (auth E roles x) w)
  = Some (status_message 401 "Authentication key missing") /\
  next_called (handle (auth E roles x) w) = false /\
  users (handle (auth E roles x) w) = users w /\
  driver_calls (handle (auth E roles x) w) = driver_calls w.
Proof.
  intros H. rewrite auth_missing; [cbn; auto|].
  destruct H as [->| ->]; [exact I | reflexivity].
Qed.

Lemma auth_missing_or_empty_key_witness :
  sent (handle (auth demo_env [teacher] (Some "")) demo_world)
  = Some (status_message 401 "Authentication key missing") /\
  next_called (handle (auth demo_env [teacher] (Some "")) demo_world) = false /\
  users (handle (auth demo_env [teacher] (Some "")) demo_world)
  = users demo_world /\
  driver_calls (handle (auth demo_env [teacher] (Some "")) demo_world)
  = driver_calls demo_world.
Proof.
  apply (auth_missing_or_empty_key demo_env [teacher] demo_world (Some "")).
  right. reflexivity.
Defined.

(** What the guard does, by cases on the key, the store and the lookup. *)
Lemma auth_cases E roles w x :
  auth E roles x (fresh_request w)
  = (Ok tt, handle (auth E roles x) w) /\
  users (handle (auth E roles x) w) = users w /\
  next_called (handle (auth E roles x) w)
  = (key_allowed roles x (users w)
     && match x with
        | Some _ => negb (driver_fails E (driver_calls w))
        | None => false
        end) /\
  sent (handle (auth E roles x) w)
  = match x with
    | None => Some (status_message 401 "Authentication key missing")
    | Some k =>
        if negb (truthy k)
        then Some (status_message 401 "Authentication key missing")
        else if driver_fails E (driver_calls w)
        then Some (status_message 401 "Authentication key invalid")
        else if key_allowed roles x (users w) then None
        else Some (status_message 403 "Access forbidden")
    end.
Proof.
  unfold key_allowed. destruct x as [k|].
  2:{ run. cbn. auto. }
  destruct (truthy k) eqn:Hk.
  2:{ run. rewrite Hk. cbn. auto. }
  destruct (driver_fails E (driver_calls w)) eqn:Hd.
  { run. rewrite Hk. cbn. rewrite Hd. cbn. rewrite andb_false_r. auto. }
  run. rewrite Hk. cbn. rewrite Hd. cbn.
  destruct (find (has_key k) (users w)) as [u|]; cbn; auto.
  destruct (includes roles (role u)); cbn; auto.
Qed.

(** X2: whatever the request and the store, the guard does exactly one of
    two things: it calls the downstream handler and writes nothing, or it
    writes one of its three rejections and does not call it.  It never
    throws and never changes the collection. *)
Theorem auth_answers_or_proceeds E roles w x :
  auth E roles x (fresh_request w) = (Ok tt, handle (auth E roles x) w) /\
  users (handle (auth E roles x) w) = users w /\
  ((next_called (handle (auth E roles x) w) = true /\
    sent (handle (auth E roles x) w) = None) \/
   (next_called (handle (auth E roles x) w) = false /\
    In (sent (handle (auth E roles x) w))
       [Some (status_message 401 "Authentication key missing");
        Some (status_message 401 "Authentication key invalid");
        Some (status_message 403 "Access forbidden")])).
Proof.
  destruct (auth_cases E roles w x) as (H1 & H2 & H3 & H4).
  split; [exact H1|]. split; [exact H2|]. rewrite H3, H4.
  destruct x as [k|]; [|right; cbn; auto].
  destruct (truthy k) eqn:Hk; unfold key_allowed; rewrite Hk; cbn;
    [|right; auto].
  destruct (driver_fails E (driver_calls w)); cbn;
    [rewrite andb_false_r; right; auto|].
  destruct (find (has_key k) (users w)) as [u|]; cbn; [|right; auto].
  destruct (includes roles (role u)); cbn; [left|right]; auto.
Qed.

(** X3: the guard calls the downstream handler exactly when the header
    carries a non-empty key, the store answers the lookup, and the first
    record holding that key has one of the allowed roles. *)
Theorem auth_proceeds_iff E roles w x :
  next_called (handle (auth E roles x) w) = true <->
  exists k u,
    x = Some k /\ k <> "" /\
    driver_fails E (driver_calls w) = false /\
    find (has_key k) (users w) = Some u /\
    In (role u) roles.
Proof.
  destruct (auth_cases E roles w x) as (_ & _ & H3 & _). rewrite H3.
  unfold key_allowed. split.
  - destruct x as [k|]; [|discriminate]. intros H.
    apply andb_prop in H as [H Hd]. apply andb_prop in H as [Hk Hf].
    destruct (find (has_key k) (users w)) as [u|] eqn:Hu; [|discriminate].
    exists k, u. split; [reflexivity|].
    split; [now apply truthy_true|].
    split; [now apply negb_true_iff|].
    split; [exact Hu | now apply includes_In].
  - intros (k & u & -> & Hk & Hd & Hf & Hin).
    apply truthy_true in Hk. apply includes_In in Hin.
    now rewrite Hk, Hf, Hin, Hd.
Qed.

(** * Further properties of logout *)

Lemma logoutUser_unknown E w t :
  driver_fails E (driver_calls w) = false ->
  find (has_key t) (users w) = None ->
  handle (logoutUser E t) w =
  mkWorld (users w) (Some (status_message 404 "User was not found.")) false
          (S (driver_calls w)) (uuid_calls w) (date_calls w) (salt_calls w)
          (oid_calls w).
Proof. intros F Hf. run. rewrite F. cbn. rewrite Hf. reflexivity. Qed.

(** X4: a logout with a key that no record holds is answered 404 "User was
    not found." and leaves the collection as it was. *)
Theorem logout_unknown_key_404 E w t :
  driver_fails E (driver_calls w) = false ->
  find (has_key t) (users w) = None ->
  sent (handle (logoutUser E t) w)
  = Some (status_message 404 "User was not found.") /\
  users (handle (logoutUser E t) w) = users w.
Proof. intros F Hf. rewrite logoutUser_unknown by assumption. auto. Qed.

Lemma logout_unknown_key_404_witness :
  sent (handle (logoutUser demo_env "stale-key") demo_world)
  = Some (status_message 404 "User was not found.") /\
  users (handle (logoutUser demo_env "stale-key") demo_world)
  = users demo_world.
Proof.
  apply (logout_unknown_key_404 demo_env demo_world "stale-key"); reflexivity.
Defined.

(** X5: a logout with a key some record holds is answered 200, and the
    first record holding the key is stored afterwards with the key set to
    null and every other field as it was; the records under every other
    [_id] and the order of the collection are untouched. *)
Theorem logout_clears_key_only E w t u :
  wf_users (users w) ->
  driver_fails E (driver_calls w) = false ->
  driver_fails E (S (driver_calls w)) = false ->
  find (has_key t) (users w) = Some u ->
  exists i,
    _id u = Some i /\
    sent (handle (logoutUser E t) w)
    = Some (status_message 200 "User has been logged out.") /\
    find (has_id i) (users (handle (logoutUser E t) w))
    = Some (set_authentication_key KeyNull u) /\
    (forall j, j <> i ->
       find (has_id j) (users (handle (logoutUser E t) w))
       = find (has_id j) (users w)) /\
    map _id (users (handle (logoutUser E t) w)) = map _id (users w).
Proof.
  intros Hwf F1 F2 Hf. pose proof (find_some _ _ Hf) as [Hin _].
  destruct (wf_users_id _ _ Hwf Hin) as [i Hid]. exists i.
  rewrite (logoutUser_success E w t u i F1 F2 Hf Hid). cbn [users sent].
  split; [exact Hid|]. split; [reflexivity|]. split.
  { rewrite (find_id_replace_same i _ (users w) u Hin Hid).
    destruct u; cbn in *. now subst. }
  split; [intros j Hj; now apply find_id_replace_other|].
  apply replace_first_ids.
Qed.

Lemma logout_clears_key_only_witness :
  exists i,
    _id bob = Some i /\
    sent (handle (logoutUser demo_env "bob-key") demo_world)
    = Some (status_message 200 "User has been logged out.") /\
    find (has_id i) (users (handle (logoutUser demo_env "bob-key") demo_world))
    = Some (set_authentication_key KeyNull bob) /\
    (forall j, j <> i ->
       find (has_id j) (users (handle (logoutUser demo_env "bob-key") demo_world))
       = find (has_id j) (users demo_world)) /\
    map _id (users (handle (logoutUser demo_env "bob-key") demo_world))
    = map _id (users demo_world).
Proof.
  apply (logout_clears_key_only demo_env demo_world "bob-key" bob demo_world_wf);
    reflexivity.
Defined.

(** X6: logging out twice with the same key: when the key had one holder
    and the first logout succeeded, the second one is answered 404 and
    changes nothing. *)
Theorem logout_twice_404 E w t u :
  wf_users (users w) ->
  (forall n, n < 3 -> driver_fails E (n + driver_calls w) = false) ->
  find (has_key t) (users w) = Some u ->
  (forall v, In v (users w) -> has_key t v = true -> v = u) ->
  sent (handle (logoutUser E t) w)
  = Some (status_message 200 "User has been logged out.") /\
  sent (handle (logoutUser E t) (handle (logoutUser E t) w))
  = Some (status_message 404 "User was not found.") /\
  users (handle (logoutUser E t) (handle (logoutUser E t) w))
  = users (handle (logoutUser E t) w).
Proof.
  intros Hwf Hd Hf Huniq.
  pose proof (Hd 0 ltac:(lia)) as F0. pose proof (Hd 1 ltac:(lia)) as F1.
  pose proof (Hd 2 ltac:(lia)) as F2. cbn in F0, F1, F2.
  destruct (logout_then_auth_stops E w t u [] (Some t) Hwf F0 F1 Hf Huniq eq_refl)
    as [Hnone _].
  pose proof (find_some _ _ Hf) as [Hin _].
  destruct (wf_users_id _ _ Hwf Hin) as [i Hid].
  assert (Hdc : driver_calls (handle (logoutUser E t) w) = S (S (driver_calls w)))
    by now rewrite (logoutUser_success E w t u i F0 F1 Hf Hid).
  split; [now rewrite (logoutUser_success E w t u i F0 F1 Hf Hid)|].
  rewrite (logoutUser_unknown E (handle (logoutUser E t) w) t);
    [cbn; auto| now rewrite Hdc | exact Hnone].
Qed.

Lemma logout_twice_404_witness :
  sent (handle (logoutUser demo_env "bob-key")
               (handle (logoutUser demo_env "bob-key") demo_world))
  = Some (status_message 404 "User was not found.") /\
  users (handle (logoutUser demo_env "bob-key")
                (handle (logoutUser demo_env "bob-key") demo_world))
  = users (handle (logoutUser demo_env "bob-key") demo_world).
Proof.
  assert (Hu : forall v, In v (users demo_world) -> has_key "bob-key" v = true
                         -> v = bob).
  { intros v [<-|[<-|[]]]; [discriminate|reflexivity]. }
  exact (proj2 (logout_twice_404 demo_env demo_world "bob-key" bob demo_world_wf
                  (fun n _ => eq_refl) eq_refl Hu)).
Defined.

(** * Further properties of the /auth controllers *)

Ltac answered :=
  eexists; split; [reflexivity|]; split; [reflexivity|]; cbn; tauto.

(** X7: [loginUser], [logoutUser] and [registerUser] answer every request
    exactly once and never throw, whatever the request and whatever the
    store does; the statuses they use are 200, 400, 401, 500 for login,
    200, 404, 500 for logout and 200, 409, 500 for registration. *)
Theorem auth_controllers_always_answer E w loginData key userData :
  (exists r,
     loginUser E loginData (fresh_request w)
     = (Ok tt, handle (loginUser E loginData) w) /\
     sent (handle (loginUser E loginData) w) = Some r /\
     In (statusCode r) [200; 400; 401; 500]%Z) /\
  (exists r,
     logoutUser E key (fresh_request w)
     = (Ok tt, handle (logoutUser E key) w) /\
     sent (handle (logoutUser E key) w) = Some r /\
     In (statusCode r) [200; 404; 500]%Z) /\
  (exists r,
     registerUser E userData (fresh_request w)
     = (Ok tt, handle (registerUser E userData) w) /\
     sent (handle (registerUser E userData) w) = Some r /\
     In (statusCode r) [200; 409; 500]%Z).
Proof.
  split; [|split].
  - destruct loginData as [[e pw]|]; run; cbn; [|answered].
    split_state; answered.
  - run. split_state; answered.
  - run. split_state; answered.
Qed.

(** X8: a login, logout or registration that is not answered 200 has not
    changed the collection. *)
Theorem auth_controllers_fail_clean E w loginData key userData r :
  statusCode r <> 200%Z ->
  (sent (handle (loginUser E loginData) w) = Some r ->
   users (handle (loginUser E loginData) w) = users w) /\
  (sent (handle (logoutUser E key) w) = Some r ->
   users (handle (logoutUser E key) w) = users w) /\
  (sent (handle (registerUser E userData) w) = Some r ->
   users (handle (registerUser E userData) w) = users w).
Proof.
  intros Hr. split; [|split].
  - destruct loginData as [[e pw]|]; run; cbn; [|reflexivity].
    split_state; try reflexivity; intros [= <-]; now elim Hr.
  - run. split_state; try reflexivity; intros [= <-]; now elim Hr.
  - run. split_state; try reflexivity; intros [= <-]; now elim Hr.
Qed.

Lemma auth_controllers_fail_clean_witness :
  sent (handle (loginUser demo_env (Some (mkLogin "a@test.com" "wrong")))
               demo_world)
  = Some (status_message 401 "Invalid password") /\
  users (handle (loginUser demo_env (Some (mkLogin "a@test.com" "wrong")))
                demo_world) = users demo_world.
Proof.
  split; [reflexivity|].
  destruct (auth_controllers_fail_clean demo_env demo_world
              (Some (mkLogin "a@test.com" "wrong")) "" alice
              (status_message 401 "Invalid password")) as (H & _ & _);
    [discriminate | apply H; reflexivity].
Defined.

(** What the three controllers do to the collection. *)

Lemma loginUser_effect E w loginData :
  wf_users (users w) ->
  users (handle (loginUser E loginData) w) = users w \/
  exists e u0 i0,
    find (has_email e) (users w) = Some u0 /\ _id u0 = Some i0 /\
    users (handle (loginUser E loginData) w)
    = snd (replace_first i0
             (set_id None (logged_in (uuid_at E (uuid_calls w))
                                     (date_at E (date_calls w)) u0))
             (users w)).
Proof.
  intros Hwf. destruct loginData as [[e pw]|]; [|left; reflexivity].
  destruct (driver_fails E (driver_calls w)) eqn:F1.
  { left. run. rewrite F1. reflexivity. }
  destruct (find (has_email e) (users w)) as [u0|] eqn:Hf.
  2:{ left. now rewrite loginUser_no_user. }
  destruct (bcrypt_compare E pw (password u0)) eqn:Hc.
  2:{ left. now rewrite (loginUser_wrong_password E w e pw u0). }
  pose proof (find_some _ _ Hf) as [Hin _].
  destruct (wf_users_id _ _ Hwf Hin) as [i0 Hid].
  destruct (driver_fails E (S (driver_calls w))) eqn:F2.
  { left. run. rewrite F1. cbn. rewrite Hf. cbn. rewrite Hc. cbn.
    rewrite Hid. cbn. rewrite F2. reflexivity. }
  right. exists e, u0, i0.
  now rewrite (loginUser_success E w e pw u0 i0 F1 F2 Hf Hid Hc).
Qed.

Lemma logoutUser_effect E w key :
  wf_users (users w) ->
  users (handle (logoutUser E key) w) = users w \/
  exists u0 i0,
    find (has_key key) (users w) = Some u0 /\ _id u0 = Some i0 /\
    users (handle (logoutUser E key) w)
    = snd (replace_first i0 (set_id None (set_authentication_key KeyNull u0))
                         (users w)).
Proof.
  intros Hwf.
  destruct (driver_fails E (driver_calls w)) eqn:F1.
  { left. run. rewrite F1. reflexivity. }
  destruct (find (has_key key) (users w)) as [u0|] eqn:Hf.
  2:{ left. now rewrite logoutUser_unknown. }
  pose proof (find_some _ _ Hf) as [Hin _].
  destruct (wf_users_id _ _ Hwf Hin) as [i0 Hid].
  destruct (driver_fails E (S (driver_calls w))) eqn:F2.
  { left. run. rewrite F1. cbn. rewrite Hf. cbn. rewrite Hid. cbn.
    rewrite F2. reflexivity. }
  right. exists u0, i0.
  now rewrite (logoutUser_success E w key u0 i0 F1 F2 Hf Hid).
Qed.

Lemma registerUser_success E w userData :
  driver_fails E (driver_calls w) = false ->
  driver_fails E (S (driver_calls w)) = false ->
  find (has_email (email userData)) (users w) = None ->
  existsb (has_id (oid_at E (oid_calls w))) (users w) = false ->
  handle (registerUser E userData) w =
  mkWorld (users w ++ [registered E w userData])
          (Some (status_message 200 "Registration successful.")) false
          (S (S (driver_calls w))) (uuid_calls w) (S (date_calls w))
          (S (salt_calls w)) (S (oid_calls w)).
Proof.
  intros F1 F2 Hf Hex. run. rewrite F1. cbn. rewrite Hf. cbn. rewrite F2.
  cbn. rewrite Hex. reflexivity.
Qed.

Lemma registerUser_effect E w userData :
  (users (handle (registerUser E userData) w) = users w /\
   forall r, sent (handle (registerUser E userData) w) = Some r ->
             statusCode r <> 200%Z) \/
  (driver_fails E (driver_calls w) = false /\
   driver_fails E (S (driver_calls w)) = false /\
   find (has_email (email userData)) (users w) = None /\
   existsb (has_id (oid_at E (oid_calls w))) (users w) = false).
Proof.
  destruct (driver_fails E (driver_calls w)) eqn:F1.
  { left. run. rewrite F1. cbn. split; [reflexivity|]. now intros r [= <-]. }
  destruct (find (has_email (email userData)) (users w)) eqn:Hf.
  { left. run. rewrite F1. cbn. rewrite Hf. cbn.
    split; [reflexivity|]. now intros r [= <-]. }
  destruct (driver_fails E (S (driver_calls w))) eqn:F2.
  { left. run. rewrite F1. cbn. rewrite Hf. cbn. rewrite F2. cbn.
    split; [reflexivity|]. now intros r [= <-]. }
  destruct (existsb (has_id (oid_at E (oid_calls w))) (users w)) eqn:Hex.
  { left. run. rewrite F1. cbn. rewrite Hf. cbn. rewrite F2. cbn.
    rewrite Hex. cbn. split; [reflexivity|]. now intros r [= <-]. }
  right. auto.
Qed.

Lemma find_app_some (P : UserObject -> bool) l l' u :
  find P l = Some u -> find P (l ++ l') = Some u.
Proof.
  induction l as [|v l IH]; cbn; [discriminate|].
  destruct (P v); [trivial | exact IH].
Qed.

Lemma find_app_none (P : UserObject -> bool) l l' :
  find P l = None -> find P (l ++ l') = find P l'.
Proof.
  induction l as [|v l IH]; cbn; [reflexivity|].
  destruct (P v); [discriminate | exact IH].
Qed.

Lemma same_account_refl u : same_account u u.
Proof. repeat split. Qed.

(** Replacing a record by one for the same account keeps every account. *)
Lemma replace_first_same_account l i0 u0 d i u :
  wf_users l -> In u0 l -> _id u0 = Some i0 ->
  same_account u0 (set_id (Some i0) d) ->
  find (has_id i) l = Some u ->
  exists u', find (has_id i) (snd (replace_first i0 d l)) = Some u' /\
             same_account u u'.
Proof.
  intros Hwf Hin Hid Hsame Hf. destruct (N.eq_dec i i0) as [->|Hne].
  - rewrite (find_id_unique l u0 i0 Hwf Hin Hid) in Hf. injection Hf as <-.
    exists (set_id (Some i0) d). split; [|exact Hsame].
    now apply (find_id_replace_same i0 d l u0).
  - exists u. split; [|apply same_account_refl].
    now rewrite find_id_replace_other.
Qed.

Lemma replace_first_emails l i0 u0 d :
  wf_users l -> In u0 l -> _id u0 = Some i0 -> email d = email u0 ->
  map email (snd (replace_first i0 d l)) = map email l.
Proof.
  induction l as [|v l IH]; cbn [replace_first In]; [tauto|].
  intros Hwf Hin Hid He. apply wf_users_cons in Hwf as (Hn & _ & Hl).
  destruct (has_id i0 v) eqn:Hv.
  - cbn. f_equal. rewrite He. destruct Hin as [->|Hin]; [reflexivity|].
    apply has_id_true in Hv. exfalso. apply Hn. rewrite Hv, <- Hid.
    now apply in_map.
  - destruct Hin as [->|Hin].
    + apply has_id_true in Hid. congruence.
    + specialize (IH Hl Hin Hid He). destruct (replace_first i0 d l).
      cbn in *. now rewrite IH.
Qed.

Lemma find_email_none_not_in e l :
  find (has_email e) l = None -> ~ In e (map email l).
Proof.
  intros Hf Hin. apply in_map_iff in Hin as (v & Hv & Hin).
  pose proof (find_none _ _ Hf v Hin) as H. unfold has_email in H.
  rewrite Hv, String.eqb_refl in H. discriminate.
Qed.

Lemma auth_accounts_kept E w loginData key userData i u :
  wf_users (users w) ->
  find (has_id i) (users w) = Some u ->
  (exists u', find (has_id i) (users (handle (loginUser E loginData) w))
              = Some u' /\ same_account u u') /\
  (exists u', find (has_id i) (users (handle (logoutUser E key) w))
              = Some u' /\ same_account u u') /\
  (exists u', find (has_id i) (users (handle (registerUser E userData) w))
              = Some u' /\ same_account u u').
Proof.
  intros Hwf Hf. split; [|split].
  - destruct (loginUser_effect E w loginData Hwf)
      as [->|(e & u0 & i0 & He & Hid & ->)].
    + exists u. split; [exact Hf | apply same_account_refl].
    + pose proof (find_some _ _ He) as [Hin _].
      apply (replace_first_same_account _ i0 u0); auto.
      rewrite set_id_logged_in by exact Hid. repeat split.
  - destruct (logoutUser_effect E w key Hwf) as [->|(u0 & i0 & Hk & Hid & ->)].
    + exists u. split; [exact Hf | apply same_account_refl].
    + pose proof (find_some _ _ Hk) as [Hin _].
      apply (replace_first_same_account _ i0 u0); auto.
      repeat split. exact (eq_sym Hid).
  - destruct (registerUser_effect E w userData)
      as [[-> _]|(F1 & F2 & He & Hex)].
    + exists u. split; [exact Hf | apply same_account_refl].
    + rewrite (registerUser_success E w userData F1 F2 He Hex). cbn [users].
      exists u. split; [now apply find_app_some | apply same_account_refl].
Qed.

(** X9: whatever its outcome, a login, a logout or a registration leaves
    every stored account with its [_id], email, password hash, role and
    creation date. *)
Theorem auth_controllers_keep_accounts E w loginData key userData i u :
  wf_users (users w) ->
  find (has_id i) (users w) = Some u ->
  (exists u', find (has_id i) (users (handle (loginUser E loginData) w))
              = Some u' /\ same_account u u') /\
  (exists u', find (has_id i) (users (handle (logoutUser E key) w))
              = Some u' /\ same_account u u') /\
  (exists u', find (has_id i) (users (handle (registerUser E userData) w))
              = Some u' /\ same_account u u').
Proof. apply auth_accounts_kept. Qed.

Lemma auth_controllers_keep_accounts_witness :
  exists u',
    find (has_id 1%N)
         (users (handle (loginUser demo_env (Some (mkLogin "a@test.com" "abc123")))
                        demo_world)) = Some u' /\
    same_account alice u'.
Proof.
  exact (proj1 (auth_controllers_keep_accounts demo_env demo_world
                  (Some (mkLogin "a@test.com" "abc123")) "" alice 1%N alice
                  demo_world_wf eq_refl)).
Defined.

(** X10: a collection in which no two records share an email is still
    such a collection after a login, a logout or a registration. *)
Theorem auth_controllers_keep_emails_unique E w loginData key userData :
  wf_users (users w) ->
  NoDup (map email (users w)) ->
  NoDup (map email (users (handle (loginUser E loginData) w))) /\
  NoDup (map email (users (handle (logoutUser E key) w))) /\
  NoDup (map email (users (handle (registerUser E userData) w))).
Proof.
  intros Hwf Hnd. split; [|split].
  - destruct (loginUser_effect E w loginData Hwf)
      as [->|(e & u0 & i0 & He & Hid & ->)]; [exact Hnd|].
    pose proof (find_some _ _ He) as [Hin _].
    now rewrite (replace_first_emails _ i0 u0).
  - destruct (logoutUser_effect E w key Hwf)
      as [->|(u0 & i0 & Hk & Hid & ->)]; [exact Hnd|].
    pose proof (find_some _ _ Hk) as [Hin _].
    now rewrite (replace_first_emails _ i0 u0).
  - destruct (registerUser_effect E w userData)
      as [[-> _]|(F1 & F2 & He & Hex)]; [exact Hnd|].
    rewrite (registerUser_success E w userData F1 F2 He Hex). cbn [users].
    rewrite map_app. cbn. apply NoDup_app; [exact Hnd|repeat constructor; cbn; tauto|].
    intros x Hx [<-|[]]. now apply (find_email_none_not_in (email userData) (users w)).
Qed.

Lemma auth_controllers_keep_emails_unique_witness :
  NoDup (map email
           (users (handle (registerUser demo_env
                             (mkUser None "c@test.com" "s3cret" teacher
                                     KeyAbsent None None))
                          demo_world))).
Proof.
  assert (Hnd : NoDup (map email (users demo_world))).
  { cbn. repeat constructor; cbn; intuition discriminate. }
  exact (proj2 (proj2 (auth_controllers_keep_emails_unique demo_env demo_world
                         None "" (mkUser None "c@test.com" "s3cret" teacher
                                         KeyAbsent None None)
                         demo_world_wf Hnd))).
Defined.

(** X11: registration, login, guard.  When the email is new, the store
    answers and bcrypt accepts a password against its own hash, the
    registration is answered 200, a login with the same email and password
    is answered 200 with a new key, and the guard given that key calls the
    downstream handler exactly when [student] is among the allowed roles,
    whatever role the registration asked for. *)
Theorem register_login_authorize E w userData roles :
  (forall n, n < 5 -> driver_fails E (n + driver_calls w) = false) ->
  find (has_email (email userData)) (users w) = None ->
  existsb (has_id (oid_at E (oid_calls w))) (users w) = false ->
  bcrypt_compare E (password userData)
    (bcrypt_hash E 10 (salt_at E (salt_calls w)) (password userData)) = true ->
  uuid_at E (uuid_calls w) <> "" ->
  unused_key (uuid_at E (uuid_calls w)) (users w) ->
  sent (handle (registerUser E userData) w)
  = Some (status_message 200 "Registration successful.") /\
  sent (handle (loginUser E (Some (mkLogin (email userData) (password userData))))
               (handle (registerUser E userData) w))
  = Some (login_response (uuid_at E (uuid_calls w))) /\
  (next_called
     (handle (auth E roles (Some (uuid_at E (uuid_calls w))))
        (handle (loginUser E (Some (mkLogin (email userData) (password userData))))
                (handle (registerUser E userData) w))) = true
   <-> In student roles).
Proof.
  intros Hd He Hex Hc Ht Hfresh.
  pose proof (Hd 0 ltac:(lia)) as F0. pose proof (Hd 1 ltac:(lia)) as F1.
  pose proof (Hd 2 ltac:(lia)) as F2. pose proof (Hd 3 ltac:(lia)) as F3.
  pose proof (Hd 4 ltac:(lia)) as F4. cbn in F0, F1, F2, F3, F4.
  rewrite (registerUser_success E w userData F0 F1 He Hex).
  split; [reflexivity|].
  set (rec := registered E w userData).
  match goal with |- context [handle (loginUser _ _) ?w1] => set (w1' := w1) end.
  assert (Hf1 : find (has_email (email userData)) (users w1') = Some rec).
  { cbn [users w1']. rewrite (find_app_none _ _ _ He). cbn.
    unfold has_email. cbn. now rewrite String.eqb_refl. }
  rewrite (loginUser_success E w1' (email userData) (password userData) rec
             (oid_at E (oid_calls w)) F2 F3 Hf1 eq_refl Hc).
  cbn [uuid_calls date_calls w1']. split; [reflexivity|].
  rewrite auth_lookup; [|now apply truthy_true|exact F4].
  cbn [users next_called].
  rewrite (find_replace_fresh _ _ _ (users w1') rec).
  - rewrite has_key_logged_in. cbn. apply includes_In.
  - intros v Hv. cbn [users w1'] in Hv. apply in_app_or in Hv as [Hv|[<-|[]]].
    + now apply Hfresh.
    + reflexivity.
  - apply (find_some _ _ Hf1).
  - reflexivity.
Qed.

Lemma register_login_authorize_witness :
  sent (handle (loginUser demo_env (Some (mkLogin "c@test.com" "s3cret")))
               (handle (registerUser demo_env
                          (mkUser None "c@test.com" "s3cret" teacher KeyAbsent
                                  None None))
                       demo_world))
  = Some (login_response "uuid-0") /\
  (next_called
     (handle (auth demo_env [teacher] (Some "uuid-0"))
        (handle (loginUser demo_env (Some (mkLogin "c@test.com" "s3cret")))
                (handle (registerUser demo_env
                           (mkUser None "c@test.com" "s3cret" teacher KeyAbsent
                                   None None))
                        demo_world))) = true
   <-> In student [teacher]).
Proof.
  assert (Hfresh : unused_key "uuid-0" (users demo_world))
    by (intros v [<-|[<-|[]]]; reflexivity).
  exact (proj2 (register_login_authorize demo_env demo_world
                  (mkUser None "c@test.com" "s3cret" teacher KeyAbsent None None)
                  [teacher] (fun n _ => eq_refl) eq_refl eq_refl eq_refl
                  ltac:(discriminate) Hfresh)).
Defined.

(** X12: once a registration has been answered 200, a second registration
    with the same email, whatever else it carries, is answered 409 and
    changes nothing. *)
Theorem register_twice_conflict E w userData userData' r :
  sent (handle (registerUser E userData) w) = Some r ->
  statusCode r = 200%Z ->
  email userData' = email userData ->
  driver_fails E (S (S (driver_calls w))) = false ->
  sent (handle (registerUser E userData') (handle (registerUser E userData) w))
  = Some (status_message 409
      "The provided email address is already associated with another account.")
  /\
  users (handle (registerUser E userData') (handle (registerUser E userData) w))
  = users (handle (registerUser E userData) w).
Proof.
  intros Hs Hr He' F3.
  destruct (registerUser_effect E w userData)
    as [[_ Hn]|(F1 & F2 & He & Hex)]; [now elim (Hn r Hs)|].
  rewrite (registerUser_success E w userData F1 F2 He Hex).
  match goal with |- context [handle _ ?w1] => set (w1' := w1) end.
  assert (Hf : find (has_email (email userData')) (users w1')
               = Some (registered E w userData)).
  { cbn [users w1']. rewrite He', (find_app_none _ _ _ He). cbn.
    unfold has_email. cbn. now rewrite String.eqb_refl. }
  run. cbn [w1' driver_calls users]. rewrite F3. cbn. fold w1'.
  cbn [users w1'] in Hf. rewrite Hf. cbn. auto.
Qed.

Lemma register_twice_conflict_witness :
  sent (handle (registerUser demo_env
                  (mkUser None "c@test.com" "other" sensor KeyAbsent None None))
               (handle (registerUser demo_env
                          (mkUser None "c@test.com" "s3cret" teacher KeyAbsent
                                  None None))
                       demo_world))
  = Some (status_message 409
      "The provided email address is already associated with another account.")
  /\
  users (handle (registerUser demo_env
                   (mkUser None "c@test.com" "other" sensor KeyAbsent None None))
                (handle (registerUser demo_env
                           (mkUser None "c@test.com" "s3cret" teacher KeyAbsent
                                   None None))
                        demo_world))
  = users (handle (registerUser demo_env
                     (mkUser None "c@test.com" "s3cret" teacher KeyAbsent
                             None None))
                  demo_world).
Proof.
  apply (register_twice_conflict demo_env demo_world
           (mkUser None "c@test.com" "s3cret" teacher KeyAbsent None None)
           (mkUser None "c@test.com" "other" sensor KeyAbsent None None)
           (status_message 200 "Registration successful."));
    reflexivity.
Defined.

(** * Further properties of PUT /users/:id *)

Lemma find_replace_only (P : UserObject -> bool) i d l u :
  In u l -> _id u = Some i ->
  (forall v, In v l -> P v = true -> _id v = Some i) ->
  P (set_id (Some i) d) = true ->
  find P (snd (replace_first i d l)) = Some (set_id (Some i) d).
Proof.
  induction l as [|v l IH]; cbn [replace_first In]; [tauto|].
  intros Hin Hid Honly Hd. destruct (has_id i v) eqn:Hv.
  - cbn [snd find]. now rewrite Hd.
  - assert (Pv : P v = false).
    { destruct (P v) eqn:Pv; [|reflexivity].
      pose proof (Honly v (or_introl eq_refl) Pv) as H.
      apply has_id_true in H. congruence. }
    destruct Hin as [->|Hin]; [apply has_id_true in Hid; congruence|].
    specialize (IH Hin Hid (fun x Hx => Honly x (or_intror Hx)) Hd).
    destruct (replace_first i d l). cbn [snd find] in *. now rewrite Pv.
Qed.

(** X13: a PUT for an id that no record has writes 404 "User not found",
    leaves the collection as it was, and then fails: the handler goes on to
    write the 200, Express refuses the second response, and the same
    happens to the 500 of the [catch], so the promise chain ends in an
    error that nothing handles. *)
Theorem update_unknown_id E w i userData :
  (forall u, In u (users w) -> has_id i u = false) ->
  driver_fails E (driver_calls w) = false ->
  fst (updateUserById E (Some i) userData (fresh_request w))
  = Throw "ERR_HTTP_HEADERS_SENT" /\
  sent (handle (updateUserById E (Some i) userData) w)
  = Some (status_message 404 "User not found") /\
  users (handle (updateUserById E (Some i) userData) w) = users w.
Proof.
  intros Hno F. run.
  destruct (truthy (password userData) && negb (startsWith (password userData) "$2a"));
    cbn; rewrite F; rewrite (replace_first_unmatched i _ (users w) Hno);
    cbn; auto.
Qed.

Lemma update_unknown_id_witness :
  fst (updateUserById demo_env (Some 9%N) alice (fresh_request demo_world))
  = Throw "ERR_HTTP_HEADERS_SENT" /\
  sent (handle (updateUserById demo_env (Some 9%N) alice) demo_world)
  = Some (status_message 404 "User not found") /\
  users (handle (updateUserById demo_env (Some 9%N) alice) demo_world)
  = users demo_world.
Proof.
  apply (update_unknown_id demo_env demo_world 9%N alice); [|reflexivity].
  intros u [<-|[<-|[]]]; reflexivity.
Defined.

(** X14: when the store rejects the replacement, the PUT is answered 500
    "Failed to update the entire user", the handler ends normally and the
    collection is as it was. *)
Theorem update_store_failure E w i userData :
  driver_fails E (driver_calls w) = true ->
  fst (updateUserById E (Some i) userData (fresh_request w)) = Ok tt /\
  sent (handle (updateUserById E (Some i) userData) w)
  = Some (status_message 500 "Failed to update the entire user") /\
  users (handle (updateUserById E (Some i) userData) w) = users w.
Proof.
  intros F. run.
  destruct (truthy (password userData) && negb (startsWith (password userData) "$2a"));
    cbn; rewrite F; cbn; auto.
Qed.

Lemma update_store_failure_witness :
  fst (updateUserById failing_env (Some 1%N) bob (fresh_request demo_world))
  = Ok tt /\
  sent (handle (updateUserById failing_env (Some 1%N) bob) demo_world)
  = Some (status_message 500 "Failed to update the entire user") /\
  users (handle (updateUserById failing_env (Some 1%N) bob) demo_world)
  = users demo_world.
Proof.
  apply (update_store_failure failing_env demo_world 1%N bob). reflexivity.
Defined.

(** X15: a PUT that reaches a record replaces it whole: apart from the
    [_id], which is kept, and the password, every field stored afterwards is
    the field of the request body, so a body without a key ends the session
    of the user and a body with another role changes the role.  The records
    under every other [_id] and the order of the collection are untouched,
    and the answer is 200. *)
Theorem update_replaces_whole_record E w i userData u :
  In u (users w) -> _id u = Some i ->
  driver_fails E (driver_calls w) = false ->
  exists rec,
    find (has_id i) (users (handle (updateUserById E (Some i) userData) w))
    = Some rec /\
    _id rec = Some i /\
    email rec = email userData /\
    role rec = role userData /\
    authentication_key rec = authentication_key userData /\
    creation_date rec = creation_date userData /\
    last_login rec = last_login userData /\
    (forall j, j <> i ->
       find (has_id j) (users (handle (updateUserById E (Some i) userData) w))
       = find (has_id j) (users w)) /\
    map _id (users (handle (updateUserById E (Some i) userData) w))
    = map _id (users w) /\
    option_map statusCode
      (sent (handle (updateUserById E (Some i) userData) w)) = Some 200%Z.
Proof.
  intros Hin Hid F. rewrite (updateUserById_stored E w i userData u Hin Hid F).
  cbn [users sent]. rewrite (find_id_replace_same i _ (users w) u Hin Hid).
  eexists. split; [reflexivity|].
  destruct (truthy (password userData) && negb (startsWith (password userData) "$2a"));
    cbn; (do 6 (split; [reflexivity|]));
    (split; [intros j Hj; now apply find_id_replace_other|]);
    (split; [apply replace_first_ids | reflexivity]).
Qed.

Lemma update_replaces_whole_record_witness :
  exists rec,
    find (has_id 2%N)
         (users (handle (updateUserById demo_env (Some 2%N)
                           (mkUser None "b@test.com" "hunter2" student KeyAbsent
                                   None None))
                        demo_world)) = Some rec /\
    role rec = student /\ authentication_key rec = KeyAbsent.
Proof.
  destruct (update_replaces_whole_record demo_env demo_world 2%N
              (mkUser None "b@test.com" "hunter2" student KeyAbsent None None)
              bob (or_intror (or_introl eq_refl)) eq_refl eq_refl)
    as (rec & Hf & _ & _ & Hr & Hk & _).
  exists rec. exact (conj Hf (conj Hr Hk)).
Defined.

(** X16: a password set through PUT can be used to log in.  When the body
    carries a non-empty password that does not start with "$2a", no other
    record has the body's email, the store answers and bcrypt accepts a
    password against its own hash, a login with the body's email and that
    password is answered 200. *)
Theorem update_password_then_login E w i userData u :
  In u (users w) -> _id u = Some i ->
  (forall v, In v (users w) -> has_email (email userData) v = true ->
             _id v = Some i) ->
  password userData <> "" ->
  String.prefix "$2a" (password userData) = false ->
  (forall n, n < 3 -> driver_fails E (n + driver_calls w) = false) ->
  bcrypt_compare E (password userData)
    (bcrypt_hash E 10 (salt_at E (salt_calls w)) (password userData)) = true ->
  sent (handle (loginUser E (Some (mkLogin (email userData) (password userData))))
               (handle (updateUserById E (Some i) userData) w))
  = Some (login_response (uuid_at E (uuid_calls w))).
Proof.
  intros Hin Hid Honly Hne Hp Hd Hc.
  pose proof (Hd 0 ltac:(lia)) as F0. pose proof (Hd 1 ltac:(lia)) as F1.
  pose proof (Hd 2 ltac:(lia)) as F2. cbn in F0, F1, F2.
  rewrite (updateUserById_stored E w i userData u Hin Hid F0).
  apply truthy_true in Hne. unfold startsWith. rewrite Hne, Hp. cbn [negb andb].
  match goal with |- context [handle _ ?w1] => set (w1' := w1) end.
  set (d := set_id None (set_password
              (bcrypt_hash E 10 (salt_at E (salt_calls w)) (password userData))
              userData)).
  assert (Hf : find (has_email (email userData)) (users w1')
               = Some (set_id (Some i) d)).
  { cbn [users w1']. apply (find_replace_only _ i d (users w) u Hin Hid Honly).
    unfold has_email. cbn. apply String.eqb_refl. }
  now rewrite (loginUser_success E w1' (email userData) (password userData)
                 (set_id (Some i) d) i F1 F2 Hf eq_refl Hc).
Qed.

Lemma update_password_then_login_witness :
  sent (handle (loginUser demo_env (Some (mkLogin "a@test.com" "new-pass")))
               (handle (updateUserById demo_env (Some 1%N)
                          (mkUser None "a@test.com" "new-pass" student KeyAbsent
                                  None None))
                       demo_world))
  = Some (login_response "uuid-0").
Proof.
  apply (update_password_then_login demo_env demo_world 1%N
           (mkUser None "a@test.com" "new-pass" student KeyAbsent None None)
           alice (or_introl eq_refl) eq_refl);
    try reflexivity; try discriminate.
  intros v [<-|[<-|[]]]; [reflexivity | discriminate].
Defined.

(** * The bulk operations *)

Ltac run_more :=
  unfold handleS, serve, route, deleteUserById,
    deleteStudentsBetweenTwoLastLoginDates,
    updateUserRoleBetweenTwoCreationDates, archiveUserInChangelog,
    changelog_call, getById, deleteById, deleteStudents, updateUserRole,
    ObjectId_of_param, deleteOne, deleteMany, updateMany_set_role,
    lift, bindS, try_catchS;
  run.

Lemma date_between_spec start stop d :
  date_between start stop d = true <->
  exists ms, d = Some (JsDate ms) /\ (start <= ms <= stop)%Z.
Proof.
  unfold date_between. split.
  - destruct d as [[ms|s]|]; try discriminate. intros H.
    apply andb_prop in H as [H1 H2]. exists ms. split; [reflexivity|lia].
  - intros (ms & -> & H). apply andb_true_intro. split; lia.
Qed.






(** X18: [deleteStudentsBetweenTwoLastLoginDates] and
    [updateUserRoleBetweenTwoCreationDates] have no [catch]: when the store
    rejects the call they throw, write no response and leave the collection
    as it was. *)
Theorem bulk_handlers_store_failure E w start stop new_role :
  driver_fails E (driver_calls w) = true ->
  (exists e,
     fst (deleteStudentsBetweenTwoLastLoginDates E start stop (fresh_request w))
     = Throw e) /\
  sent (handle (deleteStudentsBetweenTwoLastLoginDates E start stop) w) = None /\
  users (handle (deleteStudentsBetweenTwoLastLoginDates E start stop) w)
  = users w /\
  (exists e,
     fst (updateUserRoleBetweenTwoCreationDates E start stop new_role
            (fresh_request w))
     = Throw e) /\
  sent (handle (updateUserRoleBetweenTwoCreationDates E start stop new_role) w)
  = None /\
  users (handle (updateUserRoleBetweenTwoCreationDates E start stop new_role) w)
  = users w.
Proof.
  intros F. run_more. rewrite F. cbn. repeat split; eauto.
Qed.

Lemma bulk_handlers_store_failure_witness :
  sent (handle (deleteStudentsBetweenTwoLastLoginDates failing_env 0 1)
               demo_world) = None /\
  users (handle (deleteStudentsBetweenTwoLastLoginDates failing_env 0 1)
                demo_world) = users demo_world.
Proof.
  destruct (bulk_handlers_store_failure failing_env demo_world 0 1 student
              eq_refl) as (_ & H1 & H2 & _).
  exact (conj H1 H2).
Defined.

Lemma created_between_date start stop u :
  created_between start stop u = date_between start stop (creation_date u).
Proof. unfold created_between. now destruct (role u). Qed.

Lemma set_role_where_users filter r l :
  snd (set_role_where filter r l)
  = map (fun u => if filter u then set_role r u else u) l.
Proof.
  induction l as [|u l IH]; cbn [set_role_where map]; [reflexivity|].
  destruct (set_role_where filter r l) as [[m n] l']. cbn [snd] in IH.
  destruct (filter u); cbn [snd]; now rewrite IH.
Qed.

Lemma set_role_where_modified filter r l :
  Nat.ltb 0 (snd (fst (set_role_where filter r l)))
  = existsb (fun u => filter u && negb (Role_eqb (role u) r)) l.
Proof.
  induction l as [|u l IH]; cbn [set_role_where existsb]; [reflexivity|].
  destruct (set_role_where filter r l) as [[m n] l']. cbn [fst snd] in *.
  destruct (filter u); cbn [fst snd andb orb]; [|exact IH].
  destruct (Role_eqb (role u) r); cbn [negb orb]; [exact IH | reflexivity].
Qed.

Lemma Role_eqb_eq a b : Role_eqb a b = true <-> a = b.
Proof. destruct a, b; cbn; split; congruence. Qed.

Lemma updateUserRole_run E w start stop new_role :
  driver_fails E (driver_calls w) = false ->
  handle (updateUserRoleBetweenTwoCreationDates E start stop new_role) w =
  mkWorld
    (map (fun u => if created_between start stop u then set_role new_role u
                   else u) (users w))
    (Some (if existsb (fun u => created_between start stop u
                                && negb (Role_eqb (role u) new_role)) (users w)
           then mkResponse 200
                  [("status", JNum 200);
                   ("message", JStr "Updated student roles successfully.");
                   ("updateResult",
                    JUpdateResult
                      (fst (fst (set_role_where (created_between start stop)
                                                new_role (users w)))))]
           else status_message 404
                  "No users found within the specified date range"))
    false (S (driver_calls w)) (uuid_calls w) (date_calls w) (salt_calls w)
    (oid_calls w).
Proof.
  intros F. run_more. rewrite F. cbn.
  pose proof (set_role_where_users (created_between start stop) new_role (users w)) as Hu.
  pose proof (set_role_where_modified (created_between start stop) new_role (users w)) as Hm.
  destruct (set_role_where (created_between start stop) new_role (users w))
    as [[m n] l']. cbn [fst snd] in *. rewrite <- Hm, Hu.
  destruct (Nat.ltb 0 n) eqn:Hn; cbn [fst snd]; unfold Nat.ltb in Hn;
    cbn in Hn; rewrite Hn; reflexivity.
Qed.

(** X19: [PATCH /users/updateUserRoles] gives the new role to exactly the
    records whose creation date is a date within the two dates of the
    request, bounds included, and changes nothing else of them; all other
    records stay as they are, and no record is added, removed or moved.
    The answer is 200 when the role of some record changed; when every
    record in the range already had the role the answer is 404 "No users
    found within the specified date range", as it is when the range holds
    no record. *)
Theorem update_roles_selection E w start stop new_role :
  driver_fails E (driver_calls w) = false ->
  (exists g,
     users (handle (updateUserRoleBetweenTwoCreationDates E start stop new_role) w)
     = map g (users w) /\
     forall u,
       ((exists ms, creation_date u = Some (JsDate ms) /\
                    (start <= ms <= stop)%Z) ->
        g u = set_role new_role u) /\
       (~ (exists ms, creation_date u = Some (JsDate ms) /\
                      (start <= ms <= stop)%Z) ->
        g u = u)) /\
  ((exists u ms, In u (users w) /\ creation_date u = Some (JsDate ms) /\
                 (start <= ms <= stop)%Z /\ role u <> new_role) ->
   option_map statusCode
     (sent (handle (updateUserRoleBetweenTwoCreationDates E start stop new_role) w))
   = Some 200%Z) /\
  ((forall u ms, In u (users w) -> creation_date u = Some (JsDate ms) ->
                 (start <= ms <= stop)%Z -> role u = new_role) ->
   sent (handle (updateUserRoleBetweenTwoCreationDates E start stop new_role) w)
   = Some (status_message 404 "No users found within the specified date range")).
Proof.
  intros F. rewrite (updateUserRole_run E w start stop new_role F).
  cbn [users sent]. split; [|split].
  - eexists. split; [reflexivity|]. intros u. cbn beta.
    rewrite created_between_date. split; intros H.
    + apply date_between_spec in H. now rewrite H.
    + destruct (date_between start stop (creation_date u)) eqn:Hd;
        [|reflexivity].
      apply date_between_spec in Hd. contradiction.
  - intros (u & ms & Hin & Hc & Hr & Hne).
    assert (Hex : existsb (fun u => created_between start stop u
                     && negb (Role_eqb (role u) new_role)) (users w) = true).
    { apply existsb_exists. exists u. split; [exact Hin|].
      rewrite created_between_date. apply andb_true_intro. split.
      - apply date_between_spec. eauto.
      - apply negb_true_iff. destruct (Role_eqb (role u) new_role) eqn:Hq;
          [|reflexivity]. apply Role_eqb_eq in Hq. contradiction. }
    now rewrite Hex.
  - intros Hall.
    assert (Hex : existsb (fun u => created_between start stop u
                     && negb (Role_eqb (role u) new_role)) (users w) = false).
    { destruct (existsb _ (users w)) eqn:Hex; [|reflexivity].
      apply existsb_exists in Hex as (u & Hin & Hu).
      apply andb_prop in Hu as [Hc Hr]. rewrite created_between_date in Hc.
      apply date_between_spec in Hc as (ms & Hc & Hms).
      rewrite (proj2 (Role_eqb_eq _ _) (Hall u ms Hin Hc Hms)) in Hr.
      discriminate. }
    now rewrite Hex.
Qed.

Lemma update_roles_selection_witness :
  sent (handle (updateUserRoleBetweenTwoCreationDates demo_env
                  1600000000001 1600000000002 teacher) (main demo_store))
  = Some (status_message 404 "No users found within the specified date range").
Proof.
  destruct (update_roles_selection demo_env (main demo_store)
              1600000000001 1600000000002 teacher eq_refl) as (_ & _ & H).
  apply H. intros u ms [<-|[<-|[<-|[<-|[]]]]] [= <-]; (reflexivity || lia).
Defined.

(** * DELETE /users/:id *)

Lemma remove_first_In filter l v : In v (remove_first filter l) -> In v l.
Proof.
  induction l as [|u l IH]; cbn; [tauto|].
  destruct (filter u); cbn; intuition.
Qed.

Lemma remove_first_find_other i j l :
  j <> i ->
  find (has_id j) (remove_first (has_id i) l) = find (has_id j) l.
Proof.
  intros Hji. induction l as [|u l IH]; cbn [remove_first find]; [reflexivity|].
  destruct (has_id i u) eqn:Hi.
  - assert (has_id j u = false) as ->; [|reflexivity].
    destruct (has_id j u) eqn:Hj; [|reflexivity].
    apply has_id_true in Hi, Hj. congruence.
  - cbn [find]. now rewrite IH.
Qed.

Lemma remove_first_wf filter l : wf_users l -> wf_users (remove_first filter l).
Proof.
  induction l as [|u l IH]; cbn [remove_first]; [trivial|].
  intros Hwf. apply wf_users_cons in Hwf as (Hn & Hu & Hl).
  destruct (filter u); [exact Hl|]. apply wf_users_cons.
  split; [|auto]. intros Hin. apply Hn.
  apply in_map_iff in Hin as (v & Hv & Hin). rewrite <- Hv.
  apply in_map. now apply (remove_first_In filter l).
Qed.

Lemma remove_first_gone i l v :
  wf_users l -> In v (remove_first (has_id i) l) -> has_id i v = false.
Proof.
  induction l as [|u l IH]; cbn [remove_first]; [intros _ []|].
  intros Hwf. apply wf_users_cons in Hwf as (Hn & Hu & Hl).
  destruct (has_id i u) eqn:Hi.
  - intros Hin. destruct (has_id i v) eqn:Hv; [|reflexivity].
    apply has_id_true in Hi, Hv. exfalso. apply Hn. rewrite Hi, <- Hv.
    now apply in_map.
  - intros [<-|Hin]; [exact Hi | now apply IH].
Qed.

Lemma find_existsb (P : UserObject -> bool) l u :
  find P l = Some u -> existsb P l = true.
Proof.
  intros H. apply find_some in H as [Hin Hp]. apply existsb_exists. eauto.
Qed.

Lemma deleteUserById_success E s id i u :
  parsed id = Some i ->
  (forall n, n < 3 -> driver_fails E (n + driver_calls (main s)) = false) ->
  find (has_id i) (users (main s)) = Some u ->
  existsb (fun e => N.eqb (entry_id e) (oid_at E (oid_calls (main s))))
          (changelog s) = false ->
  handleS (deleteUserById E id) s =
  mkStore
    (mkWorld (remove_first (has_id i) (users (main s)))
             (Some (status_message 200 "The user has been removed successfully."))
             false (S (S (S (driver_calls (main s))))) (uuid_calls (main s))
             (S (date_calls (main s))) (salt_calls (main s))
             (S (oid_calls (main s))))
    (changelog s
     ++ [mkEntry (oid_at E (oid_calls (main s))) u
                 (JsDate (date_at E (date_calls (main s))))]).
Proof.
  intros Hp Hd Hf Hex.
  pose proof (Hd 0 ltac:(lia)) as F0. pose proof (Hd 1 ltac:(lia)) as F1.
  pose proof (Hd 2 ltac:(lia)) as F2. cbn in F0, F1, F2.
  run_more. rewrite Hp. cbn. rewrite F0. cbn. rewrite Hf. cbn. rewrite F1.
  cbn. rewrite Hex. cbn. rewrite F2. cbn.
  rewrite (find_existsb _ _ _ Hf). reflexivity.
Qed.

(** X20: a [DELETE /users/:id] that is answered 200 has removed the record
    with that id and no other, and has appended to the changelog one entry
    holding the record as it was and the time of the call.  The store
    answers its three calls and the id generated for the entry is new. *)
Theorem delete_user_archives_then_removes E s id i u :
  wf_users (users (main s)) ->
  parsed id = Some i ->
  (forall n, n < 3 -> driver_fails E (n + driver_calls (main s)) = false) ->
  find (has_id i) (users (main s)) = Some u ->
  existsb (fun e => N.eqb (entry_id e) (oid_at E (oid_calls (main s))))
          (changelog s) = false ->
  sent (main (handleS (deleteUserById E id) s))
  = Some (status_message 200 "The user has been removed successfully.") /\
  find (has_id i) (users (main (handleS (deleteUserById E id) s))) = None /\
  (forall j, j <> i ->
     find (has_id j) (users (main (handleS (deleteUserById E id) s)))
     = find (has_id j) (users (main s))) /\
  exists entry,
    changelog (handleS (deleteUserById E id) s) = (changelog s ++ [entry])%list /\
    deleted_user_details entry = u /\
    deletion_date_time entry = JsDate (date_at E (date_calls (main s))).
Proof.
  intros Hwf Hp Hd Hf Hex.
  rewrite (deleteUserById_success E s id i u Hp Hd Hf Hex).
  cbn [main users sent changelog]. split; [reflexivity|]. split.
  { apply find_all_false. intros v Hv. now apply (remove_first_gone i _ v Hwf). }
  split; [intros j Hj; now apply remove_first_find_other|].
  eexists. split; [reflexivity|]. split; reflexivity.
Qed.

Lemma demo_store_wf : wf_users (users (main demo_store)).
Proof. split; cbn; repeat constructor; cbn; intuition discriminate. Qed.

Lemma delete_user_archives_then_removes_witness :
  users (main (handleS (deleteUserById demo_env (mkIdParam "4" (Some 4%N)))
                       demo_store)) = [alice; bob; carol] /\
  exists entry,
    changelog (handleS (deleteUserById demo_env (mkIdParam "4" (Some 4%N)))
                       demo_store) = [entry] /\
    deleted_user_details entry = dave.
Proof.
  split; [reflexivity|].
  destruct (delete_user_archives_then_removes demo_env demo_store
              (mkIdParam "4" (Some 4%N)) 4%N dave demo_store_wf eq_refl
              (fun n _ => eq_refl) eq_refl eq_refl)
    as (_ & _ & _ & entry & Hc & Hu & _).
  exists entry. exact (conj Hc Hu).
Defined.

(** X21: a [DELETE /users/:id] for an id that no record has is answered
    404 "No user found with that ID"; for an id that [new ObjectId] refuses
    it is answered 500 without any call to the store.  In both cases the
    collection and the changelog are as they were. *)
Theorem delete_user_unknown_or_malformed E s id :
  match parsed id with
  | Some i => driver_fails E (driver_calls (main s)) = false /\
              find (has_id i) (users (main s)) = None
  | None => True
  end ->
  sent (main (handleS (deleteUserById E id) s))
  = Some (match parsed id with
          | Some _ => status_message 404 "No user found with that ID"
          | None => status_message 500 "Failed to delete the user"
          end) /\
  users (main (handleS (deleteUserById E id) s)) = users (main s) /\
  changelog (handleS (deleteUserById E id) s) = changelog s /\
  (parsed id = None ->
   driver_calls (main (handleS (deleteUserById E id) s))
   = driver_calls (main s)).
Proof.
  run_more. destruct (parsed id) as [i|]; cbn.
  - intros [F Hf]. rewrite F. cbn. rewrite Hf. cbn. repeat split. discriminate.
  - intros _. repeat split.
Qed.

Lemma delete_user_unknown_or_malformed_witness :
  sent (main (handleS (deleteUserById demo_env (mkIdParam "9" (Some 9%N)))
                      demo_store))
  = Some (status_message 404 "No user found with that ID") /\
  users (main (handleS (deleteUserById demo_env (mkIdParam "9" (Some 9%N)))
                       demo_store)) = users (main demo_store).
Proof.
  destruct (delete_user_unknown_or_malformed demo_env demo_store
              (mkIdParam "9" (Some 9%N)) (conj eq_refl eq_refl))
    as (H1 & H2 & _).
  exact (conj H1 H2).
Defined.

(** X22: archive and deletion are two separate calls.  When the store
    rejects the archive, the answer is 500 and neither the record nor the
    changelog has changed; when it accepts the archive and rejects the
    deletion, the answer is 500 too, the record is still in the collection
    and the changelog nevertheless holds an entry for it. *)
Theorem delete_user_not_transactional E s id i u :
  parsed id = Some i ->
  driver_fails E (driver_calls (main s)) = false ->
  find (has_id i) (users (main s)) = Some u ->
  existsb (fun e => N.eqb (entry_id e) (oid_at E (oid_calls (main s))))
          (changelog s) = false ->
  (driver_fails E (S (driver_calls (main s))) = true ->
   sent (main (handleS (deleteUserById E id) s))
   = Some (status_message 500 "Failed to delete the user") /\
   users (main (handleS (deleteUserById E id) s)) = users (main s) /\
   changelog (handleS (deleteUserById E id) s) = changelog s) /\
  (driver_fails E (S (driver_calls (main s))) = false ->
   driver_fails E (S (S (driver_calls (main s)))) = true ->
   sent (main (handleS (deleteUserById E id) s))
   = Some (status_message 500 "Failed to delete the user") /\
   users (main (handleS (deleteUserById E id) s)) = users (main s) /\
   exists entry,
     changelog (handleS (deleteUserById E id) s) = (changelog s ++ [entry])%list /\
     deleted_user_details entry = u).
Proof.
  intros Hp F0 Hf Hex. split.
  - intros F1. run_more. rewrite Hp. cbn. rewrite F0. cbn. rewrite Hf. cbn.
    rewrite F1. cbn. auto.
  - intros F1 F2.
    run_more. rewrite Hp. cbn. rewrite F0. cbn. rewrite Hf. cbn. rewrite F1.
    cbn. rewrite Hex. cbn. rewrite F2. cbn.
    repeat split. eexists. split; reflexivity.
Qed.

Lemma delete_user_not_transactional_witness :
  users (main (handleS (deleteUserById (failing_at 2) (mkIdParam "4" (Some 4%N)))
                       demo_store)) = users (main demo_store) /\
  exists entry,
    changelog (handleS (deleteUserById (failing_at 2) (mkIdParam "4" (Some 4%N)))
                       demo_store) = [entry] /\
    deleted_user_details entry = dave.
Proof.
  destruct (delete_user_not_transactional (failing_at 2) demo_store
              (mkIdParam "4" (Some 4%N)) 4%N dave eq_refl eq_refl eq_refl
              eq_refl) as [_ H].
  destruct (H eq_refl eq_refl) as (_ & Hu & Hc).
  exact (conj Hu Hc).
Defined.

(** * The guarded routes *)

Lemma handleS_lift (h : M unit) s :
  handleS (lift h) s = mkStore (handle h (main s)) (changelog s).
Proof.
  unfold handleS, lift, handle. cbn. destruct (h (fresh_request (main s)));
    reflexivity.
Qed.

Lemma auth_next_called E roles x w :
  next_called (handle (auth E roles x) w) = guard_passes E roles x w.
Proof.
  destruct (auth_cases E roles w x) as (_ & _ & H & _). rewrite H.
  unfold guard_passes, key_allowed. destruct x; [reflexivity|].
  reflexivity.
Qed.

Lemma route_run E roles x (controller : MS unit) s :
  route (auth E roles x) controller (mkStore (fresh_request (main s)) (changelog s))
  = if guard_passes E roles x (main s)
    then controller (mkStore (handle (auth E roles x) (main s)) (changelog s))
    else (Ok tt, mkStore (handle (auth E roles x) (main s)) (changelog s)).
Proof.
  destruct (auth_cases E roles (main s) x) as (Hrun & _).
  pose proof (auth_next_called E roles x (main s)) as Hn.
  unfold route, bindS, lift. cbn [main changelog]. rewrite Hrun.
  cbn [main]. now rewrite Hn.
Qed.

(** X23: a guarded route, whatever its controller.  When the key of the
    request does not resolve to a user with an allowed role, or the lookup
    fails, the controller is not run: the state after the request is the
    state the guard leaves, with one of its three rejections written and
    both collections as they were.  Otherwise the controller is run, in a
    state where nothing has been written yet and the collections are as
    they were. *)
Theorem route_runs_controller_iff_allowed E roles x (controller : MS unit) s :
  (guard_passes E roles x (main s) = false ->
   handleS (route (auth E roles x) controller) s
   = mkStore (handle (auth E roles x) (main s)) (changelog s) /\
   users (main (handleS (route (auth E roles x) controller) s))
   = users (main s) /\
   changelog (handleS (route (auth E roles x) controller) s) = changelog s /\
   In (sent (main (handleS (route (auth E roles x) controller) s)))
      [Some (status_message 401 "Authentication key missing");
       Some (status_message 401 "Authentication key invalid");
       Some (status_message 403 "Access forbidden")]) /\
  (guard_passes E roles x (main s) = true ->
   handleS (route (auth E roles x) controller) s
   = snd (controller (mkStore (handle (auth E roles x) (main s)) (changelog s)))
   /\
   users (handle (auth E roles x) (main s)) = users (main s) /\
   sent (handle (auth E roles x) (main s)) = None).
Proof.
  pose proof (route_run E roles x controller s) as Hrun.
  pose proof (auth_next_called E roles x (main s)) as Hn.
  destruct (auth_cases E roles (main s) x) as (_ & Hu & _ & Hs).
  split; intros Hg; rewrite Hg in *; unfold handleS; rewrite Hrun; cbn [snd main changelog].
  - repeat split; [exact Hu|]. rewrite Hs. unfold guard_passes in Hg.
    destruct x as [k|]; [|cbn; auto].
    destruct (truthy k) eqn:Hk; cbn [negb]; [|cbn; auto].
    destruct (driver_fails E (driver_calls (main s))); [cbn; auto|].
    rewrite andb_true_r in Hg. rewrite Hg. cbn; auto.
  - repeat split; [exact Hu|]. rewrite Hs. unfold guard_passes in Hg.
    apply andb_prop in Hg as [Hg Hd]. apply negb_true_iff in Hd.
    destruct x as [k|]; [|discriminate]. rewrite Hg, Hd.
    unfold key_allowed in Hg. apply andb_prop in Hg as [Hk _]. now rewrite Hk.
Qed.

Lemma route_runs_controller_iff_allowed_witness :
  users (main (handleS (route (auth demo_env [teacher] (Some "no-such-key"))
                              (deleteUserById demo_env (mkIdParam "4" (Some 4%N))))
                       demo_store)) = users (main demo_store) /\
  changelog (handleS (route (auth demo_env [teacher] (Some "no-such-key"))
                            (deleteUserById demo_env (mkIdParam "4" (Some 4%N))))
                     demo_store) = changelog demo_store.
Proof.
  destruct (route_runs_controller_iff_allowed demo_env [teacher]
              (Some "no-such-key")
              (deleteUserById demo_env (mkIdParam "4" (Some 4%N))) demo_store)
    as [H _].
  destruct (H eq_refl) as (_ & Hu & Hc & _). exact (conj Hu Hc).
Defined.

(** * Sequences of requests *)

Lemma filter_wf (keep : UserObject -> bool) l :
  wf_users l -> wf_users (filter keep l).
Proof.
  induction l as [|u l IH]; cbn [filter]; [trivial|].
  intros Hwf. apply wf_users_cons in Hwf as (Hn & Hu & Hl).
  destruct (keep u); [|auto]. apply wf_users_cons. split; [|auto].
  intros Hin. apply Hn. apply in_map_iff in Hin as (v & Hv & Hin).
  rewrite <- Hv. apply in_map. now apply filter_In in Hin.
Qed.

Lemma set_role_where_wf filter r l :
  wf_users l -> wf_users (snd (set_role_where filter r l)).
Proof.
  rewrite set_role_where_users. intros [Hn Hf]. split.
  - rewrite map_map.
    rewrite (map_ext _ _id); [exact Hn|]. intros u. now destruct (filter u).
  - apply Forall_map. eapply Forall_impl; [|exact Hf].
    intros u Hu. now destruct (filter u).
Qed.

Ltac split_more :=
  repeat first
    [ progress split_state
    | match goal with
      | |- context [match sent ?w with _ => _ end] => destruct (sent w); cbn
      | |- context [match parsed ?i with _ => _ end] => destruct (parsed i); cbn
      | |- context [set_role_where ?f ?r ?l] =>
          let H := fresh "Hsr" in
          pose proof (set_role_where_wf f r l) as H;
          destruct (set_role_where f r l) as [[? ?] ?]; cbn in *
      | |- context [match ?n with 0 => _ | S _ => _ end] => destruct n; cbn
      | |- context [if ?b then _ else _] => destruct b; cbn
      end ].

Lemma users_controllers_wf E w id userData start stop new_role :
  wf_users (users w) ->
  wf_users (users (snd (updateUserById E id userData w))) /\
  wf_users (users (snd (updateUserRoleBetweenTwoCreationDates E start stop
                          new_role w))) /\
  wf_users (users (snd (deleteStudentsBetweenTwoLastLoginDates E start stop w))).
Proof.
  intros Hwf. split; [|split]; run_more.
  - destruct id; split_more; auto.
  - split_more; auto.
  - destruct (driver_fails E (driver_calls w)); cbn; [exact Hwf|].
    destruct (length _); cbn; destruct (sent w); cbn; now apply filter_wf.
Qed.

Lemma deleteUserById_wf E s id :
  wf_users (users (main s)) ->
  wf_users (users (main (snd (deleteUserById E id s)))) /\
  exists l, changelog (snd (deleteUserById E id s)) = (changelog s ++ l)%list.
Proof.
  intros Hwf. run_more.
  destruct (parsed id) as [i|]; cbn.
  2:{ destruct (sent (main s)); cbn; split; auto; exists []; now rewrite app_nil_r. }
  destruct (driver_fails E (driver_calls (main s))); cbn.
  { destruct (sent (main s)); cbn; split; auto; exists []; now rewrite app_nil_r. }
  destruct (find (has_id i) (users (main s))); cbn.
  2:{ destruct (sent (main s)); cbn; split; auto; exists []; now rewrite app_nil_r. }
  destruct (driver_fails E (S (driver_calls (main s)))); cbn.
  { destruct (sent (main s)); cbn; split; auto; exists []; now rewrite app_nil_r. }
  destruct (existsb _ (changelog s)); cbn.
  { destruct (sent (main s)); cbn; split; auto; exists []; now rewrite app_nil_r. }
  destruct (driver_fails E (S (S (driver_calls (main s))))); cbn.
  { destruct (sent (main s)); cbn; split; auto; eexists; reflexivity. }
  destruct (existsb (has_id i) (users (main s))); cbn;
    destruct (sent (main s)); cbn; split; try (eexists; reflexivity);
    now apply remove_first_wf.
Qed.

Lemma lift_state {A} (c : M A) s :
  main (snd (lift c s)) = snd (c (main s)) /\
  changelog (snd (lift c s)) = changelog s.
Proof. unfold lift. destruct (c (main s)); auto. Qed.

Lemma serve_guarded E r x s :
  presented_key r = Some x ->
  guard_passes E [teacher] x (main s) = false ->
  handleS (serve E r) s
  = mkStore (handle (auth E [teacher] x) (main s)) (changelog s).
Proof.
  intros Hk Hg. unfold handleS.
  destruct r; cbn in Hk; try discriminate; injection Hk as ->; cbn [serve];
    rewrite route_run, Hg; reflexivity.
Qed.

(** X24: a request to [PUT /users/:id], [PATCH /users/updateUserRoles],
    [DELETE /users/:id] or [DELETE /users/delete/students] whose key does
    not resolve to a teacher, or whose lookup fails, changes neither the
    collection nor the changelog and is answered with one of the guard's
    three rejections. *)
Theorem users_routes_need_teacher E r x s :
  presented_key r = Some x ->
  guard_passes E [teacher] x (main s) = false ->
  users (main (handleS (serve E r) s)) = users (main s) /\
  changelog (handleS (serve E r) s) = changelog s /\
  In (sent (main (handleS (serve E r) s)))
     [Some (status_message 401 "Authentication key missing");
      Some (status_message 401 "Authentication key invalid");
      Some (status_message 403 "Access forbidden")].
Proof.
  intros Hk Hg. rewrite (serve_guarded E r x s Hk Hg). cbn [main changelog].
  destruct (auth_cases E [teacher] (main s) x) as (_ & Hu & Hn & Hs).
  split; [exact Hu|]. split; [reflexivity|]. rewrite Hs.
  unfold guard_passes in Hg. destruct x as [k|]; [|cbn; auto].
  destruct (truthy k) eqn:Ht; cbn [negb]; [|cbn; auto].
  destruct (driver_fails E (driver_calls (main s))); [cbn; auto|].
  rewrite andb_true_r in Hg. rewrite Hg. cbn; auto.
Qed.

Lemma users_routes_need_teacher_witness :
  users (main (handleS (serve demo_env
                          (PUT_users_id (Some "uuid-0") (Some 1%N)
                             (mkUser None "a@test.com" "abc123" teacher
                                     (KeyString "uuid-0") None None)))
                 (mkStore (handle (loginUser demo_env
                                     (Some (mkLogin "a@test.com" "abc123")))
                                  demo_world) [])))
  = users (handle (loginUser demo_env (Some (mkLogin "a@test.com" "abc123")))
                  demo_world) /\
  sent (main (handleS (serve demo_env
                         (PUT_users_id (Some "uuid-0") (Some 1%N)
                            (mkUser None "a@test.com" "abc123" teacher
                                    (KeyString "uuid-0") None None)))
                (mkStore (handle (loginUser demo_env
                                    (Some (mkLogin "a@test.com" "abc123")))
                                 demo_world) [])))
  = Some (status_message 403 "Access forbidden").
Proof.
  split; [|reflexivity].
  apply (users_routes_need_teacher demo_env
           (PUT_users_id (Some "uuid-0") (Some 1%N)
              (mkUser None "a@test.com" "abc123" teacher (KeyString "uuid-0")
                      None None))
           (Some "uuid-0")
           (mkStore (handle (loginUser demo_env
                               (Some (mkLogin "a@test.com" "abc123")))
                            demo_world) []));
    reflexivity.
Defined.

Lemma serve_step E r s :
  wf_users (users (main s)) ->
  wf_users (users (main (handleS (serve E r) s))) /\
  exists l, changelog (handleS (serve E r) s) = (changelog s ++ l)%list.
Proof.
  intros Hwf.
  assert (Hnil : exists l, changelog s = (changelog s ++ l)%list)
    by (exists []; now rewrite app_nil_r).
  assert (Hw1 : forall x, wf_users (users (handle (auth E [teacher] x) (main s))))
    by (intros x; now apply auth_wf).
  destruct r; cbn [serve]; try (rewrite handleS_lift; cbn [main changelog]).
  - split; [now apply loginUser_wf | exact Hnil].
  - split; [now apply registerUser_wf | exact Hnil].
  - split; [now apply logoutUser_wf | exact Hnil].
  - unfold handleS. rewrite route_run.
    destruct (guard_passes E [teacher] x_auth_key (main s)); cbn [snd main changelog];
      [|split; [apply Hw1 | exact Hnil]].
    match goal with |- context [lift ?c ?s1] =>
      destruct (lift_state c s1) as [-> ->] end.
    cbn [main changelog]. split; [|exact Hnil].
    now apply (users_controllers_wf E _ id userData 0 0 student).
  - unfold handleS. rewrite route_run.
    destruct (guard_passes E [teacher] x_auth_key (main s)); cbn [snd main changelog];
      [|split; [apply Hw1 | exact Hnil]].
    match goal with |- context [lift ?c ?s1] =>
      destruct (lift_state c s1) as [-> ->] end.
    cbn [main changelog]. split; [|exact Hnil].
    now apply (users_controllers_wf E _ None alice start stop new_role).
  - unfold handleS. rewrite route_run.
    destruct (guard_passes E [teacher] x_auth_key (main s)); cbn [snd main changelog];
      [|split; [apply Hw1 | exact Hnil]].
    apply (deleteUserById_wf E (mkStore _ (changelog s)) id). apply Hw1.
  - unfold handleS. rewrite route_run.
    destruct (guard_passes E [teacher] x_auth_key (main s)); cbn [snd main changelog];
      [|split; [apply Hw1 | exact Hnil]].
    match goal with |- context [lift ?c ?s1] =>
      destruct (lift_state c s1) as [-> ->] end.
    cbn [main changelog]. split; [|exact Hnil].
    now apply (users_controllers_wf E _ None alice start stop student).
Qed.

(** X25: through any sequence of requests to the routes above, the
    collection stays one in which every record has an [_id] and no two
    records share one, and the changelog only grows at its end: no entry is
    ever removed or changed. *)
Theorem requests_keep_ids_and_changelog E rs s :
  wf_users (users (main s)) ->
  wf_users (users (main (serve_all E rs s))) /\
  exists l, changelog (serve_all E rs s) = (changelog s ++ l)%list.
Proof.
  revert s. induction rs as [|r rs IH]; intros s Hwf; cbn [serve_all].
  - split; [exact Hwf|]. exists []. now rewrite app_nil_r.
  - destruct (serve_step E r s Hwf) as [Hwf1 [l1 Hl1]].
    destruct (IH _ Hwf1) as [Hwf2 [l2 Hl2]]. split; [exact Hwf2|].
    exists (l1 ++ l2)%list. now rewrite Hl2, Hl1, app_assoc.
Qed.

Lemma requests_keep_ids_and_changelog_witness :
  wf_users
    (users (main (serve_all demo_env
                    [POST_auth_register
                       (mkUser None "e@test.com" "s3cret" student KeyAbsent
                               None None);
                     DELETE_users_id (Some "carol-key") (mkIdParam "4" (Some 4%N));
                     POST_auth_logout "carol-key"]
                    demo_store))) /\
  exists l,
    changelog (serve_all demo_env
                 [POST_auth_register
                    (mkUser None "e@test.com" "s3cret" student KeyAbsent
                            None None);
                  DELETE_users_id (Some "carol-key") (mkIdParam "4" (Some 4%N));
                  POST_auth_logout "carol-key"]
                 demo_store) = (changelog demo_store ++ l)%list.
Proof.
  apply (requests_keep_ids_and_changelog demo_env _ demo_store demo_store_wf).
Defined.

(** X26: once [DELETE /users/:id] has removed a user whose email and key
    no other record shares, a login with that email is answered 401
    "Invalid credentials" whatever the password, and the guard never calls
    the downstream handler for the key the user held. *)
Theorem deleted_user_is_locked_out E s id i u pw roles :
  wf_users (users (main s)) ->
  parsed id = Some i ->
  (forall n, n < 4 -> driver_fails E (n + driver_calls (main s)) = false) ->
  find (has_id i) (users (main s)) = Some u ->
  existsb (fun e => N.eqb (entry_id e) (oid_at E (oid_calls (main s))))
          (changelog s) = false ->
  (forall v, In v (users (main s)) -> has_email (email u) v = true -> v = u) ->
  sent (handle (loginUser E (Some (mkLogin (email u) pw)))
               (main (handleS (deleteUserById E id) s)))
  = Some (status_message 401 "Invalid credentials") /\
  forall k,
    authentication_key u = KeyString k ->
    (forall v, In v (users (main s)) -> has_key k v = true -> v = u) ->
    next_called (handle (auth E roles (Some k))
                        (main (handleS (deleteUserById E id) s))) = false.
Proof.
  intros Hwf Hp Hd Hf Hex Hmail.
  pose proof (Hd 3 ltac:(lia)) as F3. cbn in F3.
  rewrite (deleteUserById_success E s id i u Hp
             (fun n Hn => Hd n ltac:(lia)) Hf Hex).
  cbn [main]. pose proof (find_some _ _ Hf) as [_ Hiu].
  assert (Hgone : forall P : UserObject -> bool,
            (forall v, In v (users (main s)) -> P v = true -> v = u) ->
            find P (remove_first (has_id i) (users (main s))) = None).
  { intros P HP. apply find_all_false. intros v Hv.
    destruct (P v) eqn:Pv; [|reflexivity].
    pose proof (remove_first_gone i _ v Hwf Hv) as Hvi.
    rewrite (HP v (remove_first_In _ _ _ Hv) Pv) in Hvi. congruence. }
  split.
  - rewrite loginUser_no_user; [reflexivity|exact F3|]. cbn [users].
    now apply Hgone.
  - intros k Hk Hkey. apply auth_unresolved_stops. intros k' [= <-].
    cbn [users]. now apply Hgone.
Qed.

Lemma deleted_user_is_locked_out_witness :
  sent (handle (loginUser demo_env (Some (mkLogin "b@test.com" "hunter2")))
               (main (handleS (deleteUserById demo_env (mkIdParam "2" (Some 2%N)))
                              demo_store)))
  = Some (status_message 401 "Invalid credentials") /\
  next_called (handle (auth demo_env [teacher] (Some "bob-key"))
                      (main (handleS (deleteUserById demo_env
                                        (mkIdParam "2" (Some 2%N)))
                                     demo_store))) = false.
Proof.
  destruct (deleted_user_is_locked_out demo_env demo_store
              (mkIdParam "2" (Some 2%N)) 2%N bob "hunter2" [teacher]
              demo_store_wf eq_refl (fun n _ => eq_refl) eq_refl eq_refl)
    as [H1 H2].
  { intros v [<-|[<-|[<-|[<-|[]]]]]; (discriminate || reflexivity). }
  split; [exact H1|]. apply (H2 "bob-key" eq_refl).
  intros v [<-|[<-|[<-|[<-|[]]]]]; (discriminate || reflexivity).
Defined.

(** * A collection without a teacher *)

Lemma same_account_trans u v x :
  same_account u v -> same_account v x -> same_account u x.
Proof.
  unfold same_account. intros (A1 & A2 & A3 & A4 & A5) (B1 & B2 & B3 & B4 & B5).
  repeat split; congruence.
Qed.

Lemma no_teacher_guard E x w :
  (forall u, In u (users w) -> role u <> teacher) ->
  guard_passes E [teacher] x w = false.
Proof.
  intros Hnt. unfold guard_passes, key_allowed. destruct x as [k|]; [|reflexivity].
  destruct (find (has_key k) (users w)) as [u|] eqn:Hf;
    [|now rewrite andb_false_r].
  apply find_some in Hf as [Hin _]. specialize (Hnt u Hin).
  destruct (role u); cbn; try congruence; now rewrite andb_false_r.
Qed.

Lemma auth_controllers_no_teacher E w loginData key userData :
  wf_users (users w) ->
  (forall u, In u (users w) -> role u <> teacher) ->
  (forall u, In u (users (handle (loginUser E loginData) w)) ->
             role u <> teacher) /\
  (forall u, In u (users (handle (logoutUser E key) w)) -> role u <> teacher) /\
  (forall u, In u (users (handle (registerUser E userData) w)) ->
             role u <> teacher).
Proof.
  intros Hwf Hnt. split; [|split].
  - destruct (loginUser_effect E w loginData Hwf)
      as [->|(e & u0 & i0 & He & Hid & ->)]; [exact Hnt|].
    intros v Hv. apply replace_first_In in Hv as [->|Hv]; [|now apply Hnt].
    cbn. apply Hnt. apply (find_some _ _ He).
  - destruct (logoutUser_effect E w key Hwf)
      as [->|(u0 & i0 & Hk & Hid & ->)]; [exact Hnt|].
    intros v Hv. apply replace_first_In in Hv as [->|Hv]; [|now apply Hnt].
    cbn. apply Hnt. apply (find_some _ _ Hk).
  - destruct (registerUser_effect E w userData)
      as [[-> _]|(F1 & F2 & He & Hex)]; [exact Hnt|].
    rewrite (registerUser_success E w userData F1 F2 He Hex). cbn [users].
    intros v Hv. apply in_app_or in Hv as [Hv|[<-|[]]]; [now apply Hnt|].
    discriminate.
Qed.

Lemma serve_step_no_teacher E r s :
  wf_users (users (main s)) ->
  (forall u, In u (users (main s)) -> role u <> teacher) ->
  (forall u, In u (users (main (handleS (serve E r) s))) -> role u <> teacher) /\
  changelog (handleS (serve E r) s) = changelog s /\
  forall i u,
    find (has_id i) (users (main s)) = Some u ->
    exists u', find (has_id i) (users (main (handleS (serve E r) s))) = Some u' /\
               same_account u u'.
Proof.
  intros Hwf Hnt.
  destruct (presented_key r) as [x|] eqn:Hk.
  - rewrite (serve_guarded E r x s Hk (no_teacher_guard E x (main s) Hnt)).
    cbn [main changelog].
    destruct (auth_cases E [teacher] (main s) x) as (_ & -> & _).
    split; [exact Hnt|]. split; [reflexivity|].
    intros i u Hf. exists u. split; [exact Hf | apply same_account_refl].
  - destruct r; try discriminate; cbn [serve]; rewrite handleS_lift;
      cbn [main changelog].
    + destruct (auth_controllers_no_teacher E (main s) loginData "" alice Hwf Hnt)
        as (H & _ & _).
      split; [exact H|]. split; [reflexivity|]. intros i u Hf.
      apply (auth_accounts_kept E (main s) loginData "" alice i u Hwf Hf).
    + destruct (auth_controllers_no_teacher E (main s) None "" userData Hwf Hnt)
        as (_ & _ & H).
      split; [exact H|]. split; [reflexivity|]. intros i u Hf.
      apply (auth_accounts_kept E (main s) None "" userData i u Hwf Hf).
    + destruct (auth_controllers_no_teacher E (main s) None authentication_key0
                  alice Hwf Hnt) as (_ & H & _).
      split; [exact H|]. split; [reflexivity|]. intros i u Hf.
      apply (auth_accounts_kept E (main s) None authentication_key0 alice i u
               Hwf Hf).
Qed.

(** X27: while the collection holds no teacher, no sequence of requests to
    the routes above makes one: after the sequence there is still no
    teacher, the changelog is as it was, and every account that was stored
    is still stored under its [_id] with its email, password hash, role and
    creation date. *)
Theorem no_teacher_no_change E rs s :
  wf_users (users (main s)) ->
  (forall u, In u (users (main s)) -> role u <> teacher) ->
  (forall u, In u (users (main (serve_all E rs s))) -> role u <> teacher) /\
  changelog (serve_all E rs s) = changelog s /\
  forall i u,
    find (has_id i) (users (main s)) = Some u ->
    exists u', find (has_id i) (users (main (serve_all E rs s))) = Some u' /\
               same_account u u'.
Proof.
  revert s. induction rs as [|r rs IH]; intros s Hwf Hnt; cbn [serve_all].
  - split; [exact Hnt|]. split; [reflexivity|]. intros i u Hf.
    exists u. split; [exact Hf | apply same_account_refl].
  - destruct (serve_step_no_teacher E r s Hwf Hnt) as (Hnt1 & Hc1 & Ha1).
    destruct (serve_step E r s Hwf) as [Hwf1 _].
    destruct (IH _ Hwf1 Hnt1) as (Hnt2 & Hc2 & Ha2).
    split; [exact Hnt2|]. split; [now rewrite Hc2|].
    intros i u Hf. destruct (Ha1 i u Hf) as (u1 & Hf1 & Hs1).
    destruct (Ha2 i u1 Hf1) as (u2 & Hf2 & Hs2).
    exists u2. split; [exact Hf2 | now apply (same_account_trans u u1 u2)].
Qed.

Lemma no_teacher_no_change_witness :
  Forall (fun u => role u <> teacher)
    (users (main (serve_all demo_env
                    [POST_auth_register
                       (mkUser None "e@test.com" "s3cret" teacher KeyAbsent
                               None None);
                     POST_auth_login (Some (mkLogin "e@test.com" "s3cret"));
                     PUT_users_id (Some "uuid-0") (Some 100%N)
                       (mkUser None "e@test.com" "s3cret" teacher
                               (KeyString "uuid-0") None None);
                     DELETE_users_id (Some "uuid-0") (mkIdParam "1" (Some 1%N))]
                    (mkStore (mkWorld [alice; dave] None false 0 0 0 0 0) [])))).
Proof.
  apply Forall_forall.
  apply (no_teacher_no_change demo_env _
           (mkStore (mkWorld [alice; dave] None false 0 0 0 0 0) [])).
  - split; cbn; repeat constructor; cbn; intuition discriminate.
  - intros u [<-|[<-|[]]]; discriminate.
Defined.

(** X28: when the id of a [PUT /users/:id] is not one [new ObjectId]
    accepts, the handler throws outside its [catch], after hashing the
    password and before any call to the store: it writes no response and
    the collection is as it was. *)
Theorem update_malformed_id E w userData :
  (exists e, fst (updateUserById E None userData (fresh_request w)) = Throw e) /\
  sent (handle (updateUserById E None userData) w) = None /\
  users (handle (updateUserById E None userData) w) = users w /\
  driver_calls (handle (updateUserById E None userData) w) = driver_calls w.
Proof.
  run.
  destruct (truthy (password userData) && negb (startsWith (password userData) "$2a"));
    cbn; eauto.
Qed.
